(** * audio-mixer: the audio subsystem and clip lifecycle of [src/audio/audio.c]

    A shallow embedding of [audio.c].  The C functions are written in a
    small state-and-trace monad: the state holds the three file-scope
    globals of [audio.c], the OpenAL error flag and the C heap; the trace
    records every call the code makes to its collaborators (OpenAL,
    libsndfile, libc, the logger) together with the value the call returned.
    What the collaborators answer is fixed by an environment [Env]. *)

From Stdlib Require Import ZArith Lia.
From stdpp Require Import base gmap strings list.

Open Scope Z_scope.

(** ** C integers *)

(** Two's-complement wrap-around of a [bits]-wide signed and unsigned
    integer.  Signed overflow is undefined in C; the embedding takes the
    wrapping behaviour of the usual targets. *)
Definition wrap_signed (bits z : Z) : Z :=
  (z + 2 ^ (bits - 1)) mod 2 ^ bits - 2 ^ (bits - 1).

Definition wrap_unsigned (bits z : Z) : Z := z mod 2 ^ bits.

(** [int], [ALsizei], [ALenum], [ALint] *)
Definition to_int : Z -> Z := wrap_signed 32.
(** [sf_count_t] *)
Definition to_sf_count_t : Z -> Z := wrap_signed 64.
(** [size_t] *)
Definition to_size_t : Z -> Z := wrap_unsigned 64.

Definition SIZE_MAX : Z := 2 ^ 64 - 1.

Definition NULL : Z := 0.

(** ** Constants of the collaborators' headers *)

Module AL.
Definition AL_NO_ERROR : Z := 0.
Definition AL_BUFFER : Z := 0x1009.
Definition AL_SOURCE_STATE : Z := 0x1010.
Definition AL_INITIAL : Z := 0x1011.
Definition AL_PLAYING : Z := 0x1012.
Definition AL_PAUSED : Z := 0x1013.
Definition AL_STOPPED : Z := 0x1014.
Definition AL_FORMAT_MONO8 : Z := 0x1100.
Definition AL_FORMAT_MONO16 : Z := 0x1101.
Definition AL_FORMAT_STEREO8 : Z := 0x1102.
Definition AL_FORMAT_STEREO16 : Z := 0x1103.
Definition ALC_FALSE : Z := 0.
Definition ALC_TRUE : Z := 1.

(** The error conditions an OpenAL call can raise. *)
Inductive ALerror :=
| AL_INVALID_NAME
| AL_INVALID_ENUM
| AL_INVALID_VALUE
| AL_INVALID_OPERATION
| AL_OUT_OF_MEMORY.

Definition error_code (e : ALerror) : Z :=
  match e with
  | AL_INVALID_NAME => 0xA001
  | AL_INVALID_ENUM => 0xA002
  | AL_INVALID_VALUE => 0xA003
  | AL_INVALID_OPERATION => 0xA004
  | AL_OUT_OF_MEMORY => 0xA005
  end.

(** What a name-generating call ([alGenBuffers], [alGenSources]) does:
    it writes a fresh name, or raises an error and writes nothing. *)
Inductive outcome :=
| Generated (name : Z)
| Raised (e : ALerror).
End AL.

Module Sndfile.
Definition SFM_READ : Z := 0x10.
Definition SF_FORMAT_WAV : Z := 0x010000.
Definition SF_FORMAT_PCM_S8 : Z := 0x0001.
Definition SF_FORMAT_PCM_16 : Z := 0x0002.
Definition SF_FORMAT_PCM_24 : Z := 0x0003.
Definition SF_FORMAT_PCM_32 : Z := 0x0004.
Definition SF_FORMAT_PCM_U8 : Z := 0x0005.
Definition SF_FORMAT_FLOAT : Z := 0x0006.

Record SF_INFO := mkSF_INFO {
  frames : Z;        (* sf_count_t *)
  samplerate : Z;    (* int *)
  channels : Z;      (* int *)
  format : Z;        (* int *)
  sections : Z;      (* int *)
  seekable : Z       (* int *)
}.
End Sndfile.

(** ** The declarations of [audio/audio.h] *)

(** Modelled from the spec: the result macros [AUDIO_SUCCESS] and
    [AUDIO_FAILURE] are defined in audio/audio.h, which is not among the
    sources; the exposed surface of the spec (section 6) gives every
    operation the two results Success and Failure. *)
Inductive status := AUDIO_SUCCESS | AUDIO_FAILURE.

(** Modelled from the spec: the [AudioClip] struct is declared in
    audio/audio.h, which is not among the sources.  The fields are those of
    the data model of the spec (section 3: buffer, frames, sampleRate,
    channels, format, sourceFileHandle) under the names [audio.c] uses for
    them; each numeric field has the C type of the value [audioLoadClip]
    stores in it, so that the stores convert nothing. *)
Record AudioClip := mkAudioClip {
  buffer : Z;        (* ALuint *)
  format : Z;        (* ALenum *)
  file : Z;          (* SNDFILE*, NULL = 0 *)
  frames : Z;        (* sf_count_t *)
  sample_rate : Z;   (* int *)
  channels : Z       (* int *)
}.

Definition set_buffer (v : Z) (c : AudioClip) : AudioClip :=
  mkAudioClip v (format c) (file c) (frames c) (sample_rate c) (channels c).
Definition set_format (v : Z) (c : AudioClip) : AudioClip :=
  mkAudioClip (buffer c) v (file c) (frames c) (sample_rate c) (channels c).
Definition set_file (v : Z) (c : AudioClip) : AudioClip :=
  mkAudioClip (buffer c) (format c) v (frames c) (sample_rate c) (channels c).
Definition set_frames (v : Z) (c : AudioClip) : AudioClip :=
  mkAudioClip (buffer c) (format c) (file c) v (sample_rate c) (channels c).
Definition set_sample_rate (v : Z) (c : AudioClip) : AudioClip :=
  mkAudioClip (buffer c) (format c) (file c) (frames c) v (channels c).
Definition set_channels (v : Z) (c : AudioClip) : AudioClip :=
  mkAudioClip (buffer c) (format c) (file c) (frames c) (sample_rate c) v.

(** ** The enumerations of [audio.c] *)

Definition IAS_CLEANUP_NORMALLY : Z := 0.
Definition IAS_MAKE_CONTEXT_CURRENT_FAILURE : Z := 1.
Definition IAS_CREATE_DEVICE_CONTEXT_FAILURE : Z := 2.
Definition IAS_OPEN_DEFAULT_DEVICE_FAILURE : Z := 3.

Definition IAC_CLEANUP_NORMALLY : Z := 0.
Definition IAC_OPEN_CLIP_FILE_FAILURE : Z := 1.
Definition IAC_GENERATE_GLOBAL_SOURCE_FAILURE : Z := 2.
Definition IAC_GENERATE_CLIP_BUFFER_FAILURE : Z := 3.
Definition IAC_ALLOCATE_MEMORY_TO_TEMP_CLIP_DATA_BUFFER_FAILURE : Z := 4.
Definition IAC_READ_CLIP_FILE_COMPLETELY_FAILURE : Z := 5.
Definition IAC_COPY_CLIP_FILE_DATA_TO_CLIP_BUFFER_FAILURE : Z := 6.

(** ** The environment: what the collaborators answer *)

Record Env := mkEnv {
  (** [alcOpenDevice(NULL)]: the device, or [NULL] *)
  env_alcOpenDevice : Z;
  (** [alcCreateContext(device, NULL)]: the context, or [NULL] *)
  env_alcCreateContext : Z -> Z;
  (** [alcMakeContextCurrent(context)]: an [ALCboolean] *)
  env_alcMakeContextCurrent : Z -> Z;
  env_alGenBuffers : AL.outcome;
  env_alGenSources : AL.outcome;
  (** [sf_open(path, SFM_READ, &info)]: the handle (or [NULL]) and the
      header it stores in [info] *)
  env_sf_open : string -> Z * Sndfile.SF_INFO;
  (** [calloc(nmemb, size)] for a request that fits [size_t]: the block,
      or [NULL] *)
  env_calloc : Z -> Z -> Z;
  (** [sf_readf_short(file, ptr, frames)]: the number of frames read *)
  env_sf_readf_short : Z -> Z -> Z;
  (** [alBufferData(buffer, format, data, size, freq)]: the error it
      raises, if any *)
  env_alBufferData : Z -> Z -> Z -> Z -> option AL.ALerror;
  (** what the n-th [alGetSourcei(source, AL_SOURCE_STATE, &state)] of the
      run leaves in [state] *)
  env_alGetSourcei : nat -> Z;
  (** the value an [int] local holds before its first assignment *)
  env_indeterminate : Z
}.

(** ** State and trace *)

Record World := mkWorld {
  global_device : Z;
  global_context : Z;
  global_source : Z;
  (** the OpenAL error flag: the first error raised since the last
      [alGetError] *)
  al_error : Z;
  (** the blocks of the C heap that are allocated, with their byte sizes *)
  heap : gmap Z Z;
  (** how many times the state of a source was queried *)
  polls : nat
}.

Inductive event :=
| Log_info (fmt : string) (args : list string)
| Log_error (fmt : string)
| Call_alcOpenDevice (name result : Z)
| Call_alcCreateContext (device result : Z)
| Call_alcMakeContextCurrent (context result : Z)
| Call_alcDestroyContext (context : Z)
| Call_alcCloseDevice (device : Z)
| Call_alGetError (result : Z)
| Call_alGenBuffers (result : AL.outcome)
| Call_alGenSources (result : AL.outcome)
| Call_alDeleteSources (source : Z)
| Call_alDeleteBuffers (buffer : Z)
| Call_alBufferData (buffer format data size freq : Z)
| Call_alSourcei (source param value : Z)
| Call_alSourcePlay (source : Z)
| Call_alGetSourcei (source param result : Z)
| Call_sf_open (path : string) (mode result : Z)
| Call_sf_readf_short (sndfile ptr frames result : Z)
| Call_sf_close (sndfile : Z)
| Call_calloc (nmemb size result : Z)
| Call_free (ptr : Z)
| Call_sleep (seconds : Z).

Record Res (A : Type) := mkRes {
  value : A;
  world : World;
  events : list event
}.
Arguments mkRes {A} _ _ _.
Arguments value {A} _.
Arguments world {A} _.
Arguments events {A} _.

(** A computation runs from a world to a value, a new world and the events
    it emitted, oldest first. *)
Definition M (A : Type) : Type := World -> Res A.

#[global] Instance M_ret : MRet M := fun A (a : A) w => mkRes a w [].

#[global] Instance M_bind : MBind M := fun A B (f : A -> M B) (m : M A) w =>
  match m w with
  | mkRes a w1 tr1 =>
      match f a w1 with
      | mkRes b w2 tr2 => mkRes b w2 (tr1 ++ tr2)
      end
  end.

Definition emit (e : event) : M unit := fun w => mkRes tt w [e].
Definition get {A : Type} (f : World -> A) : M A := fun w => mkRes (f w) w [].
Definition modify (f : World -> World) : M unit := fun w => mkRes tt (f w) [].

Definition set_global_device (v : Z) (w : World) : World :=
  mkWorld v (global_context w) (global_source w) (al_error w) (heap w) (polls w).
Definition set_global_context (v : Z) (w : World) : World :=
  mkWorld (global_device w) v (global_source w) (al_error w) (heap w) (polls w).
Definition set_global_source (v : Z) (w : World) : World :=
  mkWorld (global_device w) (global_context w) v (al_error w) (heap w) (polls w).
Definition set_al_error (v : Z) (w : World) : World :=
  mkWorld (global_device w) (global_context w) (global_source w) v (heap w) (polls w).
Definition set_heap (h : gmap Z Z) (w : World) : World :=
  mkWorld (global_device w) (global_context w) (global_source w) (al_error w) h (polls w).
Definition set_polls (n : nat) (w : World) : World :=
  mkWorld (global_device w) (global_context w) (global_source w) (al_error w) (heap w) n.

(** An OpenAL call that fails records its error unless an earlier one is
    still pending. *)
Definition al_raise (e : AL.ALerror) : M unit :=
  modify (fun w => if al_error w =? AL.AL_NO_ERROR
                   then set_al_error (AL.error_code e) w else w).

(** ** [switch] with fall-through *)

Inductive stmt :=
| Do (m : M unit)
| Break.

(** The body of a [switch]: statements in program order, each under the
    [case] labels written in front of it. *)
Definition switch_body := list (list Z * stmt).

Fixpoint fall_through (body : switch_body) : M unit :=
  match body with
  | [] => mret tt
  | (_, Break) :: _ => mret tt
  | (_, Do m) :: rest => m ;; fall_through rest
  end.

Fixpoint switch (v : Z) (body : switch_body) : M unit :=
  match body with
  | [] => mret tt
  | (labels, s) :: rest =>
      if existsb (Z.eqb v) labels
      then fall_through ((labels, s) :: rest)
      else switch v rest
  end.

(** [do body while (cond)]: [body] yields the value of the condition.  The
    loop of the C code has no bound; [fuel] bounds the iterations of the
    embedding, and [None] is the loop still running when it is used up. *)
Fixpoint do_while (fuel : nat) (body : M bool) : M (option unit) :=
  match fuel with
  | O => mret None
  | S n => again ← body; if again : bool then do_while n body else mret (Some tt)
  end.


(** ** The program *)

Section Program.

Variable E : Env.

(** *** The collaborators *)

Definition log_info (fmt : string) (args : list string) : M unit :=
  emit (Log_info fmt args).

Definition log_error (fmt : string) : M unit :=
  emit (Log_error fmt).

Definition alcOpenDevice (name : Z) : M Z :=
  let d := env_alcOpenDevice E in
  emit (Call_alcOpenDevice name d);; mret d.

Definition alcCreateContext (device : Z) : M Z :=
  let c := env_alcCreateContext E device in
  emit (Call_alcCreateContext device c);; mret c.

Definition alcMakeContextCurrent (context : Z) : M Z :=
  let r := env_alcMakeContextCurrent E context in
  emit (Call_alcMakeContextCurrent context r);; mret r.

Definition alcDestroyContext (context : Z) : M unit :=
  emit (Call_alcDestroyContext context).

Definition alcCloseDevice (device : Z) : M unit :=
  emit (Call_alcCloseDevice device).

(** [alGetError] returns the pending error and clears the flag. *)
Definition alGetError : M Z :=
  e ← get al_error;
  modify (set_al_error AL.AL_NO_ERROR);;
  emit (Call_alGetError e);;
  mret e.

(** [alGenBuffers(1, &x)], where [x] holds [old]: the new content of [x]. *)
Definition alGenBuffers (old : Z) : M Z :=
  emit (Call_alGenBuffers (env_alGenBuffers E));;
  match env_alGenBuffers E with
  | AL.Generated name => mret name
  | AL.Raised e => al_raise e;; mret old
  end.

(** [alGenSources(1, &global_source)] *)
Definition alGenSources : M unit :=
  emit (Call_alGenSources (env_alGenSources E));;
  match env_alGenSources E with
  | AL.Generated name => modify (set_global_source name)
  | AL.Raised e => al_raise e
  end.

Definition alDeleteSources (source : Z) : M unit :=
  emit (Call_alDeleteSources source).

Definition alDeleteBuffers (buf : Z) : M unit :=
  emit (Call_alDeleteBuffers buf).

Definition alBufferData (buf fmt data size freq : Z) : M unit :=
  emit (Call_alBufferData buf fmt data size freq);;
  match env_alBufferData E buf fmt size freq with
  | None => mret tt
  | Some e => al_raise e
  end.

Definition alSourcei (source param v : Z) : M unit :=
  emit (Call_alSourcei source param v).

Definition alSourcePlay (source : Z) : M unit :=
  emit (Call_alSourcePlay source).

(** [alGetSourcei(source, param, &x)]: the new content of [x]. *)
Definition alGetSourcei (source param : Z) : M Z :=
  n ← get polls;
  modify (set_polls (S n));;
  let v := env_alGetSourcei E n in
  emit (Call_alGetSourcei source param v);; mret v.

(** [sf_open(path, mode, &info)]: the handle and the content of [info]. *)
Definition sf_open (path : string) (mode : Z) : M (Z * Sndfile.SF_INFO) :=
  let r := env_sf_open E path in
  emit (Call_sf_open path mode (fst r));; mret r.

Definition sf_readf_short (sndfile ptr nframes : Z) : M Z :=
  let n := env_sf_readf_short E sndfile nframes in
  emit (Call_sf_readf_short sndfile ptr nframes n);; mret n.

Definition sf_close (sndfile : Z) : M unit :=
  emit (Call_sf_close sndfile).

(** [calloc] fails when [nmemb * size] does not fit [size_t]; a block it
    returns is entered in the heap with its byte size. *)
Definition calloc_result (nmemb size : Z) : Z :=
  if nmemb * size <=? SIZE_MAX then env_calloc E nmemb size else NULL.

Definition calloc (nmemb size : Z) : M Z :=
  let p := calloc_result nmemb size in
  emit (Call_calloc nmemb size p);;
  (if p =? NULL then mret tt
   else modify (fun w => set_heap (<[p := nmemb * size]> (heap w)) w));;
  mret p.

Definition free (ptr : Z) : M unit :=
  emit (Call_free ptr);;
  modify (fun w => set_heap (delete ptr (heap w)) w).

Definition sleep (seconds : Z) : M unit :=
  emit (Call_sleep seconds).

(** *** [audio.c] *)

Definition internal_audio_subsystem_cleanup (failure_status : Z) : M unit :=
  switch failure_status
    [ ([IAS_CLEANUP_NORMALLY],
       Do (_ ← alcMakeContextCurrent NULL; mret tt));
      ([IAS_MAKE_CONTEXT_CURRENT_FAILURE],
       Do (c ← get global_context; alcDestroyContext c));
      ([IAS_CREATE_DEVICE_CONTEXT_FAILURE],
       Do (d ← get global_device; alcCloseDevice d));
      ([IAS_OPEN_DEFAULT_DEVICE_FAILURE],
       Break) ].

Definition internal_audio_clip_cleanup (failure_status : Z) (clip : AudioClip)
  : M unit :=
  switch failure_status
    [ ([IAC_CLEANUP_NORMALLY;
        IAC_COPY_CLIP_FILE_DATA_TO_CLIP_BUFFER_FAILURE;
        IAC_READ_CLIP_FILE_COMPLETELY_FAILURE;
        IAC_ALLOCATE_MEMORY_TO_TEMP_CLIP_DATA_BUFFER_FAILURE],
       Do (sf_close (file clip)));
      ([IAC_OPEN_CLIP_FILE_FAILURE],
       Do (s ← get global_source; alDeleteSources s));
      ([IAC_GENERATE_GLOBAL_SOURCE_FAILURE],
       Do (alDeleteBuffers (buffer clip)));
      ([IAC_GENERATE_CLIP_BUFFER_FAILURE],
       Break) ].

Definition audioInitSubsystem : M status :=
  log_info "Initialize audio subsystem" [];;
  d ← alcOpenDevice NULL;
  modify (set_global_device d);;
  d ← get global_device;
  if d =? NULL then
    log_error "Failed to open default audio device";;
    internal_audio_subsystem_cleanup IAS_OPEN_DEFAULT_DEVICE_FAILURE;;
    mret AUDIO_FAILURE
  else
  c ← alcCreateContext d;
  modify (set_global_context c);;
  c ← get global_context;
  if c =? NULL then
    log_error "Failed to create device context";;
    internal_audio_subsystem_cleanup IAS_CREATE_DEVICE_CONTEXT_FAILURE;;
    mret AUDIO_FAILURE
  else
  r ← alcMakeContextCurrent c;
  if r =? AL.ALC_FALSE then
    log_error "Failed to make context current";;
    internal_audio_subsystem_cleanup IAS_MAKE_CONTEXT_CURRENT_FAILURE;;
    mret AUDIO_FAILURE
  else
  mret AUDIO_SUCCESS.

(** Lines 144-169 of [audioLoadClip]: the stores of the header into the
    clip and the [switch] on the encoding, which has no [default].  The
    result is the clip and the local [bit_depth]; on an encoding that no
    [case] names, [bit_depth] keeps the value [indet] it had before the
    [switch] and [clip->format] is left as it was. *)
Definition set_clip_info (indet : Z) (clip : AudioClip) (info : Sndfile.SF_INFO)
  : AudioClip * Z :=
  let clip := set_frames (Sndfile.frames info) clip in
  let clip := set_sample_rate (Sndfile.samplerate info) clip in
  let clip := set_channels (Sndfile.channels info) clip in
  let bit_depth := indet in
  let pcm_format_mask := 0xF in
  let sel := Z.land (Sndfile.format info) pcm_format_mask in
  if (sel =? Sndfile.SF_FORMAT_PCM_S8) || (sel =? Sndfile.SF_FORMAT_PCM_U8) then
    let bit_depth := 8 in
    (set_format (if channels clip =? 1 then AL.AL_FORMAT_MONO8
                 else AL.AL_FORMAT_STEREO8) clip, bit_depth)
  else if sel =? Sndfile.SF_FORMAT_PCM_16 then
    let bit_depth := 16 in
    (set_format (if channels clip =? 1 then AL.AL_FORMAT_MONO16
                 else AL.AL_FORMAT_STEREO16) clip, bit_depth)
  else (clip, bit_depth).

(** The arguments [clip->frames * clip->channels] and [bit_depth / 2] of
    [calloc] (line 172), converted to [size_t]. *)
Definition temp_nmemb (clip : AudioClip) : Z :=
  to_size_t (to_sf_count_t (frames clip * channels clip)).

Definition temp_size (bit_depth : Z) : Z :=
  to_size_t (to_int (Z.quot bit_depth 2)).

(** The argument [clip->frames * clip->channels * bit_depth / 2] of
    [alBufferData] (line 196), converted to [ALsizei]. *)
Definition upload_size (clip : AudioClip) (bit_depth : Z) : Z :=
  to_int (Z.quot (to_sf_count_t
                    (to_sf_count_t (frames clip * channels clip) * bit_depth)) 2).

Definition audioLoadClip (clip : AudioClip) (clip_file_name : string)
  : M (status * AudioClip) :=
  log_info "Load audio clip: %s" [clip_file_name];;
  alGetError;;
  b ← alGenBuffers (buffer clip);
  let clip := set_buffer b clip in
  e ← alGetError;
  if negb (e =? AL.AL_NO_ERROR) then
    log_error "Failed to generate clip buffer";;
    internal_audio_clip_cleanup IAC_GENERATE_CLIP_BUFFER_FAILURE clip;;
    mret (AUDIO_FAILURE, clip)
  else
  alGenSources;;
  e ← alGetError;
  if negb (e =? AL.AL_NO_ERROR) then
    log_error "Failed to generate global source";;
    internal_audio_clip_cleanup IAC_GENERATE_GLOBAL_SOURCE_FAILURE clip;;
    mret (AUDIO_FAILURE, clip)
  else
  r ← sf_open clip_file_name Sndfile.SFM_READ;
  let clip_file_info := snd r in
  let clip := set_file (fst r) clip in
  if file clip =? NULL then
    log_error "Failed to open clip file";;
    internal_audio_clip_cleanup IAC_OPEN_CLIP_FILE_FAILURE clip;;
    mret (AUDIO_FAILURE, clip)
  else
  let header := set_clip_info (env_indeterminate E) clip clip_file_info in
  let clip := fst header in
  let bit_depth := snd header in
  clip_file_data ← calloc (temp_nmemb clip) (temp_size bit_depth);
  if clip_file_data =? NULL then
    log_error "Failed to allocate memory to temporary clip data buffer";;
    internal_audio_clip_cleanup
      IAC_ALLOCATE_MEMORY_TO_TEMP_CLIP_DATA_BUFFER_FAILURE clip;;
    mret (AUDIO_FAILURE, clip)
  else
  n ← sf_readf_short (file clip) clip_file_data (frames clip);
  if negb (n =? frames clip) then
    log_error "Failed to read clip file completely";;
    internal_audio_clip_cleanup IAC_READ_CLIP_FILE_COMPLETELY_FAILURE clip;;
    mret (AUDIO_FAILURE, clip)
  else
  alBufferData (buffer clip) (format clip) clip_file_data
    (upload_size clip bit_depth) (sample_rate clip);;
  free clip_file_data;;
  e ← alGetError;
  if negb (e =? AL.AL_NO_ERROR) then
    log_error "Failed to copy clip file data to clip buffer";;
    internal_audio_clip_cleanup
      IAC_COPY_CLIP_FILE_DATA_TO_CLIP_BUFFER_FAILURE clip;;
    mret (AUDIO_FAILURE, clip)
  else
  mret (AUDIO_SUCCESS, clip).

(** The body of the [do] ... [while] of [audioPlayClip] (lines 222-224),
    with the value of its condition [source_state == AL_PLAYING]. *)
Definition poll : M bool :=
  sleep 1;;
  s ← get global_source;
  source_state ← alGetSourcei s AL.AL_SOURCE_STATE;
  mret (source_state =? AL.AL_PLAYING).

(** [fuel] bounds the iterations of the polling loop; the result is [None]
    when the loop is still running after [fuel] iterations. *)
Definition audioPlayClip (fuel : nat) (clip : AudioClip) : M (option unit) :=
  s ← get global_source;
  alSourcei s AL.AL_BUFFER (to_int (buffer clip));;
  s ← get global_source;
  alSourcePlay s;;
  do_while fuel poll.

Definition audioUnloadClip (clip : AudioClip) : M unit :=
  internal_audio_clip_cleanup IAC_CLEANUP_NORMALLY clip.

Definition audioQuitSubsystem : M unit :=
  internal_audio_subsystem_cleanup IAS_CLEANUP_NORMALLY.

End Program.

(** ** Observing a run *)

(** The three handles of the clip lifecycle. *)
Inductive resource :=
| Buffer (name : Z)
| Voice (name : Z)
| File (handle : Z).

(** The handle a call acquired, if it acquired one. *)
Definition handle_acquired (e : event) : option resource :=
  match e with
  | Call_alGenBuffers (AL.Generated b) => Some (Buffer b)
  | Call_alGenSources (AL.Generated s) => Some (Voice s)
  | Call_sf_open _ _ f => if f =? NULL then None else Some (File f)
  | _ => None
  end.

(** The handle a call released, if it released one. *)
Definition handle_released (e : event) : option resource :=
  match e with
  | Call_alDeleteBuffers b => Some (Buffer b)
  | Call_alDeleteSources s => Some (Voice s)
  | Call_sf_close f => Some (File f)
  | _ => None
  end.

Definition handle_acquisitions (tr : list event) : list resource :=
  omap handle_acquired tr.

Definition handle_releases (tr : list event) : list resource :=
  omap handle_released tr.

(** The byte sizes of the blocks [calloc] was asked for, the blocks given
    to [free], and the byte lengths given to [alBufferData]. *)
Definition calloc_bytes (tr : list event) : list Z :=
  omap (fun e => match e with
                 | Call_calloc nmemb size _ => Some (nmemb * size)
                 | _ => None
                 end) tr.

Definition freed (tr : list event) : list Z :=
  omap (fun e => match e with Call_free p => Some p | _ => None end) tr.

Definition uploaded_bytes (tr : list event) : list Z :=
  omap (fun e => match e with
                 | Call_alBufferData _ _ _ size _ => Some size
                 | _ => None
                 end) tr.

(** The events of [count] iterations of the polling loop of [audioPlayClip]
    on the source [src], the first of them being query number [start]. *)
Fixpoint poll_events (E : Env) (src : Z) (start count : nat) : list event :=
  match count with
  | O => []
  | S n =>
      Call_sleep 1
        :: Call_alGetSourcei src AL.AL_SOURCE_STATE (env_alGetSourcei E start)
        :: poll_events E src (S start) n
  end.

(** The [n]-th query of the state of the voice reports [AL_PLAYING]. *)
Definition playing (E : Env) (n : nat) : Prop :=
  env_alGetSourcei E n = AL.AL_PLAYING.

(** *** The failure points of [audioLoadClip]

    One per [return AUDIO_FAILURE] of the function, named after the status
    it hands to [internal_audio_clip_cleanup]. *)
Inductive load_step :=
| Generate_clip_buffer
| Generate_global_source
| Open_clip_file
| Allocate_temp_buffer
| Read_clip_file
| Copy_to_clip_buffer.

(** The number of the step in the clip lifecycle of the spec (step 4, the
    header, has no failure point). *)
Definition step_number (k : load_step) : nat :=
  match k with
  | Generate_clip_buffer => 1
  | Generate_global_source => 2
  | Open_clip_file => 3
  | Allocate_temp_buffer => 5
  | Read_clip_file => 6
  | Copy_to_clip_buffer => 7
  end.

Definition generated (o : AL.outcome) : option Z :=
  match o with
  | AL.Generated name => Some name
  | AL.Raised _ => None
  end.

Section LoadSteps.

Variables (E : Env) (clip : AudioClip) (path : string).
(** the buffer name, the source name and the file handle of the run *)
Variables (b s f : Z).

(** The clip and [bit_depth] once the header is stored (after line 169). *)
Definition clip_with_info : AudioClip :=
  fst (set_clip_info (env_indeterminate E) (set_file f (set_buffer b clip))
         (snd (env_sf_open E path))).

Definition bit_depth_with_info : Z :=
  snd (set_clip_info (env_indeterminate E) (set_file f (set_buffer b clip))
         (snd (env_sf_open E path))).

Definition temp_block : Z :=
  calloc_result E (temp_nmemb clip_with_info) (temp_size bit_depth_with_info).

Definition buffer_generated : Prop := env_alGenBuffers E = AL.Generated b.
Definition source_generated : Prop := env_alGenSources E = AL.Generated s.
Definition file_opened : Prop := fst (env_sf_open E path) = f /\ f <> NULL.
Definition temp_allocated : Prop := temp_block <> NULL.
Definition file_read : Prop :=
  env_sf_readf_short E (file clip_with_info) (frames clip_with_info)
  = frames clip_with_info.
Definition upload_error : option AL.ALerror :=
  env_alBufferData E (buffer clip_with_info) (format clip_with_info)
    (upload_size clip_with_info bit_depth_with_info)
    (sample_rate clip_with_info).

(** Step [k] fails and every step before it succeeded. *)
Definition fails_at (k : load_step) : Prop :=
  match k with
  | Generate_clip_buffer =>
      generated (env_alGenBuffers E) = None
  | Generate_global_source =>
      buffer_generated /\ generated (env_alGenSources E) = None
  | Open_clip_file =>
      buffer_generated /\ source_generated /\ fst (env_sf_open E path) = NULL
  | Allocate_temp_buffer =>
      buffer_generated /\ source_generated /\ file_opened /\
      temp_block = NULL
  | Read_clip_file =>
      buffer_generated /\ source_generated /\ file_opened /\
      temp_allocated /\ ~ file_read
  | Copy_to_clip_buffer =>
      buffer_generated /\ source_generated /\ file_opened /\
      temp_allocated /\ file_read /\ upload_error <> None
  end.

(** No step fails. *)
Definition all_steps_succeed : Prop :=
  buffer_generated /\ source_generated /\ file_opened /\
  temp_allocated /\ file_read /\ upload_error = None.

(** The handles held when step [k] starts, in acquisition order: the
    buffer is acquired by step 1, the voice by step 2, the file by step 3. *)
Definition held_before (k : load_step) : list resource :=
  take (step_number k - 1) [Buffer b; Voice s; File f].

End LoadSteps.

(** ** The words of the spec *)

(** [bytesPerSample] of the spec: 1 for 8-bit and 2 for 16-bit encodings. *)
Definition spec_bytesPerSample (bitDepth : Z) : Z := bitDepth / 8.

(** The bit depth a libsndfile header declares for the PCM encodings. *)
Definition SF_FORMAT_SUBMASK : Z := 0x0000FFFF.

Definition header_bit_depth (info : Sndfile.SF_INFO) : option Z :=
  let subtype := Z.land (Sndfile.format info) SF_FORMAT_SUBMASK in
  if (subtype =? Sndfile.SF_FORMAT_PCM_S8) || (subtype =? Sndfile.SF_FORMAT_PCM_U8)
  then Some 8
  else if subtype =? Sndfile.SF_FORMAT_PCM_16 then Some 16
  else if subtype =? Sndfile.SF_FORMAT_PCM_24 then Some 24
  else if subtype =? Sndfile.SF_FORMAT_PCM_32 then Some 32
  else None.

(** The mapping table of section 4.2 of the spec: the format tag of a
    (bit depth, channel count) pair; the table has no tag for other pairs. *)
Definition spec_format_table (bitDepth nchannels : Z) : option Z :=
  if (bitDepth =? 8) && (nchannels =? 1) then Some AL.AL_FORMAT_MONO8
  else if (bitDepth =? 8) && (nchannels =? 2) then Some AL.AL_FORMAT_STEREO8
  else if (bitDepth =? 16) && (nchannels =? 1) then Some AL.AL_FORMAT_MONO16
  else if (bitDepth =? 16) && (nchannels =? 2) then Some AL.AL_FORMAT_STEREO16
  else None.

(** ** Scenarios *)

Definition with_alcOpenDevice (v : Z) (E : Env) : Env :=
  mkEnv v (env_alcCreateContext E) (env_alcMakeContextCurrent E)
    (env_alGenBuffers E) (env_alGenSources E) (env_sf_open E) (env_calloc E)
    (env_sf_readf_short E) (env_alBufferData E) (env_alGetSourcei E)
    (env_indeterminate E).
Definition with_alcCreateContext (v : Z -> Z) (E : Env) : Env :=
  mkEnv (env_alcOpenDevice E) v (env_alcMakeContextCurrent E)
    (env_alGenBuffers E) (env_alGenSources E) (env_sf_open E) (env_calloc E)
    (env_sf_readf_short E) (env_alBufferData E) (env_alGetSourcei E)
    (env_indeterminate E).
Definition with_alcMakeContextCurrent (v : Z -> Z) (E : Env) : Env :=
  mkEnv (env_alcOpenDevice E) (env_alcCreateContext E) v
    (env_alGenBuffers E) (env_alGenSources E) (env_sf_open E) (env_calloc E)
    (env_sf_readf_short E) (env_alBufferData E) (env_alGetSourcei E)
    (env_indeterminate E).
Definition with_alGenBuffers (v : AL.outcome) (E : Env) : Env :=
  mkEnv (env_alcOpenDevice E) (env_alcCreateContext E)
    (env_alcMakeContextCurrent E) v (env_alGenSources E) (env_sf_open E)
    (env_calloc E) (env_sf_readf_short E) (env_alBufferData E)
    (env_alGetSourcei E) (env_indeterminate E).
Definition with_alGenSources (v : AL.outcome) (E : Env) : Env :=
  mkEnv (env_alcOpenDevice E) (env_alcCreateContext E)
    (env_alcMakeContextCurrent E) (env_alGenBuffers E) v (env_sf_open E)
    (env_calloc E) (env_sf_readf_short E) (env_alBufferData E)
    (env_alGetSourcei E) (env_indeterminate E).
Definition with_sf_open (v : string -> Z * Sndfile.SF_INFO) (E : Env) : Env :=
  mkEnv (env_alcOpenDevice E) (env_alcCreateContext E)
    (env_alcMakeContextCurrent E) (env_alGenBuffers E) (env_alGenSources E) v
    (env_calloc E) (env_sf_readf_short E) (env_alBufferData E)
    (env_alGetSourcei E) (env_indeterminate E).
Definition with_calloc (v : Z -> Z -> Z) (E : Env) : Env :=
  mkEnv (env_alcOpenDevice E) (env_alcCreateContext E)
    (env_alcMakeContextCurrent E) (env_alGenBuffers E) (env_alGenSources E)
    (env_sf_open E) v (env_sf_readf_short E) (env_alBufferData E)
    (env_alGetSourcei E) (env_indeterminate E).
Definition with_sf_readf_short (v : Z -> Z -> Z) (E : Env) : Env :=
  mkEnv (env_alcOpenDevice E) (env_alcCreateContext E)
    (env_alcMakeContextCurrent E) (env_alGenBuffers E) (env_alGenSources E)
    (env_sf_open E) (env_calloc E) v (env_alBufferData E)
    (env_alGetSourcei E) (env_indeterminate E).
Definition with_alBufferData (v : Z -> Z -> Z -> Z -> option AL.ALerror)
  (E : Env) : Env :=
  mkEnv (env_alcOpenDevice E) (env_alcCreateContext E)
    (env_alcMakeContextCurrent E) (env_alGenBuffers E) (env_alGenSources E)
    (env_sf_open E) (env_calloc E) (env_sf_readf_short E) v
    (env_alGetSourcei E) (env_indeterminate E).
Definition with_alGetSourcei (v : nat -> Z) (E : Env) : Env :=
  mkEnv (env_alcOpenDevice E) (env_alcCreateContext E)
    (env_alcMakeContextCurrent E) (env_alGenBuffers E) (env_alGenSources E)
    (env_sf_open E) (env_calloc E) (env_sf_readf_short E) (env_alBufferData E)
    v (env_indeterminate E).
Definition with_indeterminate (v : Z) (E : Env) : Env :=
  mkEnv (env_alcOpenDevice E) (env_alcCreateContext E)
    (env_alcMakeContextCurrent E) (env_alGenBuffers E) (env_alGenSources E)
    (env_sf_open E) (env_calloc E) (env_sf_readf_short E) (env_alBufferData E)
    (env_alGetSourcei E) v.

(** A header of [nframes] frames at 44100 Hz with the given channel count
    and libsndfile subtype, in a WAV container. *)
Definition wav_header (nframes nchannels subtype : Z) : Sndfile.SF_INFO :=
  Sndfile.mkSF_INFO nframes 44100 nchannels
    (Z.lor Sndfile.SF_FORMAT_WAV subtype) 1 1.

(** Scenario B of the spec: a well-formed mono 16-bit, 44100 Hz, 4410-frame
    file, and collaborators that all succeed; playback is over at the third
    query of the source state. *)
Definition valid_mono16 : Sndfile.SF_INFO :=
  wav_header 4410 1 Sndfile.SF_FORMAT_PCM_16.

Definition nominal : Env :=
  mkEnv 0x1000 (fun _ => 0x2000) (fun _ => AL.ALC_TRUE)
    (AL.Generated 1) (AL.Generated 2)
    (fun _ => (0x3000, valid_mono16))
    (fun _ _ => 0x4000)
    (fun _ nframes => nframes)
    (fun _ _ _ _ => None)
    (fun n => if (n <? 2)%nat then AL.AL_PLAYING else AL.AL_STOPPED)
    0.

(** Scenario C of the spec: the header declares 1000 frames, the file holds
    500. *)
Definition truncated : Env :=
  with_sf_readf_short (fun _ nframes => Z.min nframes 500)
    (with_sf_open
       (fun _ => (0x3000, wav_header 1000 1 Sndfile.SF_FORMAT_PCM_16))
       nominal).

(** A 24-bit PCM file, loaded into a clip object that held a mono 16-bit
    clip before; the local [bit_depth] starts out as 16. *)
Definition pcm24 : Env :=
  with_indeterminate 16
    (with_sf_open
       (fun _ => (0x3000, wav_header 4410 1 Sndfile.SF_FORMAT_PCM_24))
       nominal).

(** A 16-bit file with three channels. *)
Definition three_channels : Env :=
  with_sf_open
    (fun _ => (0x3000, wav_header 4410 3 Sndfile.SF_FORMAT_PCM_16))
    nominal.

(** The upload of the decoded data is rejected. *)
Definition upload_rejected : Env :=
  with_alBufferData (fun _ _ _ _ => Some AL.AL_INVALID_VALUE) nominal.

(** Scenario A of the spec: no output device; and the two later failures
    of the subsystem lifecycle. *)
Definition no_device : Env := with_alcOpenDevice NULL nominal.
Definition no_context : Env := with_alcCreateContext (fun _ => NULL) nominal.
Definition not_current : Env :=
  with_alcMakeContextCurrent (fun _ => AL.ALC_FALSE) nominal.

(** A voice that is not playing when it is first queried. *)
Definition silent : Env := with_alGetSourcei (fun _ => AL.AL_STOPPED) nominal.

Definition fresh_world : World := mkWorld NULL NULL 0 AL.AL_NO_ERROR ∅ 0.

Definition fresh_clip : AudioClip := mkAudioClip 0 0 NULL 0 0 0.

Definition reused_clip : AudioClip :=
  mkAudioClip 1 AL.AL_FORMAT_MONO16 NULL 4410 44100 1.

(** The heap after a run of [audioLoadClip] that fails at step [k], from
    the heap [h] before it. *)
Definition heap_after (E : Env) (clip : AudioClip) (path : string) (b f : Z)
    (k : load_step) (h : gmap Z Z) : gmap Z Z :=
  let p := temp_block E clip path b f in
  let bytes := temp_nmemb (clip_with_info E clip path b f)
               * temp_size (bit_depth_with_info E clip path b f) in
  match k with
  | Read_clip_file => <[p := bytes]> h
  | Copy_to_clip_buffer => delete p (<[p := bytes]> h)
  | _ => h
  end.

(** ** Further observations *)

(** The error messages a run logged. *)
Definition errors_logged (tr : list event) : list string :=
  omap (fun e => match e with Log_error msg => Some msg | _ => None end) tr.

(** The message [audioLoadClip] hands to [log_error] at each failure
    point. *)
Definition failure_message (k : load_step) : string :=
  match k with
  | Generate_clip_buffer => "Failed to generate clip buffer"
  | Generate_global_source => "Failed to generate global source"
  | Open_clip_file => "Failed to open clip file"
  | Allocate_temp_buffer =>
      "Failed to allocate memory to temporary clip data buffer"
  | Read_clip_file => "Failed to read clip file completely"
  | Copy_to_clip_buffer => "Failed to copy clip file data to clip buffer"
  end.

(** The pointers [calloc] returned. *)
Definition calloc_results (tr : list event) : list Z :=
  omap (fun e => match e with Call_calloc _ _ p => Some p | _ => None end) tr.

(** The seconds a run spent in [sleep]. *)
Definition slept (tr : list event) : Z :=
  foldr (fun e acc => match e with Call_sleep n => n + acc | _ => acc end)
    0 tr.

(** The calls of the playback loop. *)
Definition playback_call (e : event) : Prop :=
  match e with
  | Call_alSourcei _ _ _ | Call_alSourcePlay _
  | Call_sleep _ | Call_alGetSourcei _ _ _ => True
  | _ => False
  end.

(** The calls of the clip lifecycle: every call but those of the device
    and context functions and those of the playback loop. *)
Definition clip_call (e : event) : Prop :=
  match e with
  | Call_alcOpenDevice _ _ | Call_alcCreateContext _ _
  | Call_alcMakeContextCurrent _ _ | Call_alcDestroyContext _
  | Call_alcCloseDevice _
  | Call_alSourcei _ _ _ | Call_alSourcePlay _
  | Call_sleep _ | Call_alGetSourcei _ _ _ => False
  | _ => True
  end.

(** A computation keeps the relation [R] between the world it starts from
    and the world it ends in, and emits only events of [P]. *)
Definition confined {A : Type} (R : World -> World -> Prop)
    (P : event -> Prop) (m : M A) : Prop :=
  forall w, R w (world (m w)) /\ Forall P (events (m w)).

(** The globals of the subsystem lifecycle and the poll counter are the
    same in the two worlds. *)
Definition same_subsystem (w w' : World) : Prop :=
  global_device w' = global_device w /\
  global_context w' = global_context w /\
  polls w' = polls w.

(** The two worlds differ at most in the poll counter. *)
Definition same_but_polls (w w' : World) : Prop :=
  global_device w' = global_device w /\
  global_context w' = global_context w /\
  global_source w' = global_source w /\
  al_error w' = al_error w /\
  heap w' = heap w.

(** The size of a [short], the sample type [sf_readf_short] writes. *)
Definition sizeof_short : Z := 2.

(** * Verification *)

(** ** Symbolic execution *)

(** Evaluation of a run, up to the tests on what the environment answers. *)
Ltac run :=
  cbv -[Z.eqb Z.leb Z.mul set_clip_info temp_nmemb temp_size upload_size
        calloc_result insert delete not].
Ltac run_in H :=
  cbv -[Z.eqb Z.leb Z.mul set_clip_info temp_nmemb temp_size upload_size
        calloc_result insert delete not] in H.

(** Comparisons of two literals are evaluated. *)
Ltac eval_literals :=
  repeat match goal with
  | |- context [Z.eqb ?a ?b] =>
      let v := eval cbv in (Z.eqb a b) in
      match v with true => idtac | false => idtac end;
      change (Z.eqb a b) with v
  end.

(** The other tests are decided by the facts at hand. *)
Ltac use_facts :=
  repeat match goal with
  | H : _ = _ |- _ => rewrite H
  | H : _ <> _ |- _ => rewrite (proj2 (Z.eqb_neq _ _) H)
  | |- _ => rewrite Z.eqb_refl
  end.

(** A run is evaluated as far as the facts at hand decide its tests. *)
Ltac go := repeat (progress (run; use_facts; eval_literals)).

(** ** The header step *)

Lemma set_clip_info_buffer indet c info :
  buffer (fst (set_clip_info indet c info)) = buffer c.
Proof. unfold set_clip_info. repeat case_match; reflexivity. Qed.

Lemma set_clip_info_file indet c info :
  file (fst (set_clip_info indet c info)) = file c.
Proof. unfold set_clip_info. repeat case_match; reflexivity. Qed.

Lemma set_clip_info_frames indet c info :
  frames (fst (set_clip_info indet c info)) = Sndfile.frames info.
Proof. unfold set_clip_info. repeat case_match; reflexivity. Qed.

Lemma set_clip_info_sample_rate indet c info :
  sample_rate (fst (set_clip_info indet c info)) = Sndfile.samplerate info.
Proof. unfold set_clip_info. repeat case_match; reflexivity. Qed.

Lemma set_clip_info_channels indet c info :
  channels (fst (set_clip_info indet c info)) = Sndfile.channels info.
Proof. unfold set_clip_info. repeat case_match; reflexivity. Qed.

(** The mask [0xF] of the code keeps the low four bits of the subtype that
    libsndfile's [SF_FORMAT_SUBMASK] selects. *)
Lemma pcm_mask_of_subtype fmt :
  Z.land fmt 0xF = Z.land (Z.land fmt SF_FORMAT_SUBMASK) 0xF.
Proof. rewrite <- Z.land_assoc. reflexivity. Qed.

Lemma set_clip_info_format_8 indet c info :
  header_bit_depth info = Some 8 ->
  format (fst (set_clip_info indet c info))
  = if Sndfile.channels info =? 1 then AL.AL_FORMAT_MONO8
    else AL.AL_FORMAT_STEREO8.
Proof.
  unfold header_bit_depth, set_clip_info.
  rewrite (pcm_mask_of_subtype (Sndfile.format info)).
  set (sub := Z.land (Sndfile.format info) SF_FORMAT_SUBMASK).
  destruct (Z.eqb_spec sub Sndfile.SF_FORMAT_PCM_S8) as [->|];
    [reflexivity|].
  destruct (Z.eqb_spec sub Sndfile.SF_FORMAT_PCM_U8) as [->|];
    [reflexivity|].
  cbn [orb]. repeat case_match; discriminate.
Qed.

Lemma set_clip_info_format_16 indet c info :
  header_bit_depth info = Some 16 ->
  format (fst (set_clip_info indet c info))
  = if Sndfile.channels info =? 1 then AL.AL_FORMAT_MONO16
    else AL.AL_FORMAT_STEREO16.
Proof.
  unfold header_bit_depth, set_clip_info.
  rewrite (pcm_mask_of_subtype (Sndfile.format info)).
  set (sub := Z.land (Sndfile.format info) SF_FORMAT_SUBMASK).
  destruct (Z.eqb_spec sub Sndfile.SF_FORMAT_PCM_S8) as [->|];
    [discriminate|].
  destruct (Z.eqb_spec sub Sndfile.SF_FORMAT_PCM_U8) as [->|];
    [discriminate|].
  destruct (Z.eqb_spec sub Sndfile.SF_FORMAT_PCM_16) as [->|];
    [reflexivity|].
  cbn [orb]. repeat case_match; discriminate.
Qed.

(** An encoding that no [case] of the [switch] names leaves the format tag
    of the clip as it was and [bit_depth] indeterminate. *)
Lemma set_clip_info_no_case indet c info :
  let sel := Z.land (Sndfile.format info) 0xF in
  sel <> Sndfile.SF_FORMAT_PCM_S8 ->
  sel <> Sndfile.SF_FORMAT_PCM_U8 ->
  sel <> Sndfile.SF_FORMAT_PCM_16 ->
  format (fst (set_clip_info indet c info)) = format c /\
  snd (set_clip_info indet c info) = indet.
Proof.
  intros sel H1 H2 H3. unfold set_clip_info. fold sel.
  destruct (Z.eqb_spec sel Sndfile.SF_FORMAT_PCM_S8); [contradiction|].
  destruct (Z.eqb_spec sel Sndfile.SF_FORMAT_PCM_U8); [contradiction|].
  destruct (Z.eqb_spec sel Sndfile.SF_FORMAT_PCM_16); [contradiction|].
  split; reflexivity.
Qed.

Lemma error_code_nonzero e : (AL.error_code e =? 0) = false.
Proof. destruct e; reflexivity. Qed.

(** The header step leaves the buffer and the file handle of the clip. *)
Ltac frame :=
  match goal with
  | |- context [set_clip_info ?i ?c ?info] =>
      let Hb := fresh in
      let Hf := fresh in
      pose proof (set_clip_info_buffer i c info) as Hb;
      pose proof (set_clip_info_file i c info) as Hf;
      run_in Hb; run_in Hf; rewrite ?Hb, ?Hf
  end.

(** ** The runs of [audioLoadClip] *)

Lemma audioLoadClip_failure E clip path b s f k w :
  fails_at E clip path b s f k ->
  exists c w' tr,
    audioLoadClip E clip path w = mkRes (AUDIO_FAILURE, c) w' tr /\
    handle_acquisitions tr = held_before b s f k /\
    handle_releases tr = rev (held_before b s f k) /\
    freed tr = match k with
               | Copy_to_clip_buffer => [temp_block E clip path b f]
               | _ => []
               end /\
    heap w' = heap_after E clip path b f k (heap w) /\
    ((2 < step_number k)%nat -> global_source w' = s) /\
    ((3 < step_number k)%nat -> c = clip_with_info E clip path b f).
Proof.
  intros H.
  remember (audioLoadClip E clip path w) as r eqn:Hr. revert Hr. revert H.
  destruct E as [od cc mc gb gs so ca rd bd st ind].
  destruct k; run.
  - destruct gb as [|e]; [intros; discriminate|].
    intros _. pose proof (error_code_nonzero e) as He; run_in He.
    go. intros ->. do 3 eexists. split; [reflexivity|]. run.
    repeat split; auto; lia.
  - destruct gs as [|e]; [intros [_ ?]; discriminate|].
    intros [-> _]. pose proof (error_code_nonzero e) as He; run_in He.
    go. intros ->. do 3 eexists. split; [reflexivity|]. run.
    repeat split; auto; lia.
  - intros (-> & -> & H3).
    go. intros ->. do 3 eexists. split; [reflexivity|]. run.
    repeat split; auto; lia.
  - intros (-> & -> & [H3 H3'] & H4).
    go. intros ->. do 3 eexists. split; [reflexivity|]. run.
    use_facts. frame.
    repeat split; auto.
  - intros (-> & -> & [H3 H3'] & H4 & H5).
    go. intros ->. do 3 eexists. split; [reflexivity|]. run.
    use_facts. frame.
    repeat split; auto.
  - intros (-> & -> & [H3 H3'] & H4 & H5 & H6).
    match type of H6 with
    | ?x <> None => destruct x as [e|] eqn:H7; [|congruence]
    end.
    clear H6. pose proof (error_code_nonzero e) as He; run_in He.
    go. intros ->. do 3 eexists. split; [reflexivity|]. run.
    use_facts. frame.
    repeat split; auto.
Qed.

Lemma audioLoadClip_success E clip path b s f w :
  all_steps_succeed E clip path b s f ->
  let c := clip_with_info E clip path b f in
  let bd := bit_depth_with_info E clip path b f in
  let p := temp_block E clip path b f in
  exists w',
    audioLoadClip E clip path w =
      mkRes (AUDIO_SUCCESS, c) w'
        [ Log_info "Load audio clip: %s" [path];
          Call_alGetError (al_error w);
          Call_alGenBuffers (AL.Generated b);
          Call_alGetError AL.AL_NO_ERROR;
          Call_alGenSources (AL.Generated s);
          Call_alGetError AL.AL_NO_ERROR;
          Call_sf_open path Sndfile.SFM_READ f;
          Call_calloc (temp_nmemb c) (temp_size bd) p;
          Call_sf_readf_short f p (frames c) (frames c);
          Call_alBufferData b (format c) p (upload_size c bd) (sample_rate c);
          Call_free p;
          Call_alGetError AL.AL_NO_ERROR ] /\
    global_source w' = s /\
    heap w' = delete p (<[p := temp_nmemb c * temp_size bd]> (heap w)).
Proof.
  intros H c bd p. subst c bd p.
  remember (audioLoadClip E clip path w) as r eqn:Hr. revert Hr. revert H.
  destruct E as [od cc mc gb gs so ca rd bd st ind].
  run. intros (-> & -> & [H3 H3'] & H4 & H5 & H6).
  go. intros ->. eexists. split.
  { run. use_facts. frame. reflexivity. }
  split; run; use_facts; reflexivity.
Qed.

(** Every run either passes all steps or fails at one of them. *)
Lemma audioLoadClip_cases E clip path :
  exists b s f,
    all_steps_succeed E clip path b s f \/
    exists k, fails_at E clip path b s f k.
Proof.
  destruct (env_alGenBuffers E) as [b|e] eqn:Hb; cycle 1.
  { exists 0, 0, 0. right. exists Generate_clip_buffer. simpl. now rewrite Hb. }
  destruct (env_alGenSources E) as [s|e] eqn:Hs; cycle 1.
  { exists b, 0, 0. right. exists Generate_global_source. simpl.
    unfold buffer_generated. now rewrite Hs. }
  set (f := fst (env_sf_open E path)).
  exists b, s, f.
  destruct (Z.eq_dec f NULL) as [Hf|Hf].
  { right. exists Open_clip_file. simpl. auto. }
  assert (Hopen : file_opened E path f) by (split; auto).
  destruct (Z.eq_dec (temp_block E clip path b f) NULL) as [Hp|Hp].
  { right. exists Allocate_temp_buffer. simpl. auto. }
  destruct (Z.eq_dec
              (env_sf_readf_short E (file (clip_with_info E clip path b f))
                 (frames (clip_with_info E clip path b f)))
              (frames (clip_with_info E clip path b f))) as [Hr|Hr].
  2:{ right. exists Read_clip_file. simpl. unfold file_read. auto 10. }
  destruct (upload_error E clip path b f) as [e|] eqn:Hu.
  { right. exists Copy_to_clip_buffer. simpl. unfold temp_allocated, file_read.
    repeat split; auto. rewrite Hu. discriminate. }
  left. unfold all_steps_succeed, temp_allocated, file_read. auto 10.
Qed.

(** A run that fails at the read never calls [free], and the block that
    [calloc] returned is still in the heap when the run ends. *)
Lemma read_failure_keeps_temp_block E clip path b s f w :
  fails_at E clip path b s f Read_clip_file ->
  let r := audioLoadClip E clip path w in
  let p := temp_block E clip path b f in
  freed (events r) = [] /\
  heap (world r) !! p
  = Some (temp_nmemb (clip_with_info E clip path b f)
          * temp_size (bit_depth_with_info E clip path b f)).
Proof.
  intros H r p. subst r p.
  destruct (audioLoadClip_failure E clip path b s f Read_clip_file w H)
    as (c & w' & tr & Hrun & _ & _ & Hfreed & Hheap & _).
  rewrite Hrun. cbn [events world]. split; [exact Hfreed|].
  rewrite Hheap. unfold heap_after. apply lookup_insert_eq.
Qed.

(** A file whose encoding no [case] of the [switch] names is loaded like
    any other when the later steps succeed: the run returns
    [AUDIO_SUCCESS] and the clip keeps the format tag it had. *)
Lemma unnamed_encoding_is_loaded E clip path b s f w :
  let sel := Z.land (Sndfile.format (snd (env_sf_open E path))) 0xF in
  sel <> Sndfile.SF_FORMAT_PCM_S8 ->
  sel <> Sndfile.SF_FORMAT_PCM_U8 ->
  sel <> Sndfile.SF_FORMAT_PCM_16 ->
  all_steps_succeed E clip path b s f ->
  let r := audioLoadClip E clip path w in
  fst (value r) = AUDIO_SUCCESS /\
  format (snd (value r)) = format clip.
Proof.
  intros sel H1 H2 H3 Hall r. subst r.
  destruct (audioLoadClip_success E clip path b s f w Hall) as (w' & Hrun & _).
  rewrite Hrun. cbn [value fst snd]. split; [reflexivity|].
  unfold clip_with_info.
  destruct (set_clip_info_no_case (env_indeterminate E)
              (set_file f (set_buffer b clip)) (snd (env_sf_open E path))
              H1 H2 H3) as [Hfmt _].
  rewrite Hfmt. reflexivity.
Qed.

(** ** The clip lifecycle *)

(** C1: whichever step of [audioLoadClip] fails, the call returns
    [AUDIO_FAILURE]; the handles it acquired (buffer, voice, file) are
    exactly those of the steps before the failing one, and the handles it
    released are the same ones in reverse order of acquisition, so that no
    handle of the failing step or of a later one is touched. *)
Theorem audioLoadClip_rollback E clip path b s f k w :
  fails_at E clip path b s f k ->
  let r := audioLoadClip E clip path w in
  fst (value r) = AUDIO_FAILURE /\
  handle_acquisitions (events r) = held_before b s f k /\
  handle_releases (events r) = rev (held_before b s f k).
Proof.
  intros H r.
  destruct (audioLoadClip_failure E clip path b s f k w H)
    as (c & w' & tr & Hrun & Hacq & Hrel & _).
  subst r. rewrite Hrun. simpl. auto.
Qed.

Lemma audioLoadClip_rollback_witness :
  fails_at truncated fresh_clip "truncated.wav" 1 2 0x3000 Read_clip_file /\
  let r := audioLoadClip truncated fresh_clip "truncated.wav" fresh_world in
  fst (value r) = AUDIO_FAILURE /\
  handle_acquisitions (events r) = [Buffer 1; Voice 2; File 0x3000] /\
  handle_releases (events r) = [File 0x3000; Voice 2; Buffer 1].
Proof.
  assert (H : fails_at truncated fresh_clip "truncated.wav" 1 2 0x3000
                Read_clip_file)
    by (vm_compute; repeat split; intro; discriminate).
  split; [exact H|].
  exact (audioLoadClip_rollback truncated fresh_clip "truncated.wav"
           1 2 0x3000 Read_clip_file fresh_world H).
Defined.

(** C2: on the truncated file of scenario C (1000 frames declared, 500
    read) [audioLoadClip] fails and releases the file, the voice and the
    buffer, but it never calls [free]: the 8000-byte block that [calloc]
    returned is still allocated when the call returns. *)
Theorem truncated_read_leaks_temp_buffer :
  let r := audioLoadClip truncated fresh_clip "truncated.wav" fresh_world in
  fst (value r) = AUDIO_FAILURE /\
  handle_releases (events r) = [File 0x3000; Voice 2; Buffer 1] /\
  calloc_bytes (events r) = [8000] /\
  freed (events r) = [] /\
  heap (world r) !! 0x4000 = Some 8000.
Proof. vm_compute. repeat split. Qed.

(** C3: a 24-bit PCM file, for which the mapping table has no tag, is not
    rejected: [audioLoadClip] returns [AUDIO_SUCCESS] and the clip keeps the
    format tag it held before the call. *)
Theorem pcm24_is_not_rejected :
  let r := audioLoadClip pcm24 reused_clip "pcm24.wav" fresh_world in
  header_bit_depth (snd (env_sf_open pcm24 "pcm24.wav")) = Some 24 /\
  spec_format_table 24 1 = None /\
  fst (value r) = AUDIO_SUCCESS /\
  format (snd (value r)) = format reused_clip.
Proof. vm_compute. repeat split. Qed.

(** C4: for the mono 16-bit file of 4410 frames of scenario B the spec
    counts 4410 * 1 * 2 = 8820 bytes; [audioLoadClip] asks [calloc] for
    4410 * 8 = 35280 bytes and hands the same 35280 to [alBufferData],
    since it takes [bit_depth / 2] (4 for 8-bit, 8 for 16-bit encodings) as
    the size of a sample. *)
Theorem mono16_temp_buffer_size :
  let r := audioLoadClip nominal fresh_clip "valid_mono16.wav" fresh_world in
  fst (value r) = AUDIO_SUCCESS /\
  calloc_bytes (events r) = [35280] /\
  uploaded_bytes (events r) = [35280] /\
  4410 * 1 * spec_bytesPerSample 16 = 8820 /\
  (temp_size 8 = 4 /\ spec_bytesPerSample 8 = 1) /\
  (temp_size 16 = 8 /\ spec_bytesPerSample 16 = 2).
Proof. vm_compute. repeat split. Qed.



(** C8: once the file is open, an 8-bit or 16-bit header gets the mono tag
    of its bit depth exactly when its channel count is 1 and the stereo tag
    for every other channel count; the channel count never makes the load
    fail. *)
Theorem audioLoadClip_channel_tag E clip path b s f w :
  buffer_generated E b ->
  source_generated E s ->
  file_opened E path f ->
  let r := audioLoadClip E clip path w in
  let info := snd (env_sf_open E path) in
  (header_bit_depth info = Some 8 ->
   format (snd (value r))
   = if Sndfile.channels info =? 1 then AL.AL_FORMAT_MONO8
     else AL.AL_FORMAT_STEREO8) /\
  (header_bit_depth info = Some 16 ->
   format (snd (value r))
   = if Sndfile.channels info =? 1 then AL.AL_FORMAT_MONO16
     else AL.AL_FORMAT_STEREO16) /\
  (temp_allocated E clip path b f ->
   file_read E clip path b f ->
   upload_error E clip path b f = None ->
   fst (value r) = AUDIO_SUCCESS).
Proof.
  intros Hb Hs Hf r info.
  assert (Hclip : snd (value r) = clip_with_info E clip path b f).
  { subst r.
    destruct (Z.eq_dec (temp_block E clip path b f) NULL) as [Hp|Hp].
    { destruct (audioLoadClip_failure E clip path b s f Allocate_temp_buffer w)
        as (c & w' & tr & Hrun & _ & _ & _ & _ & _ & Hc);
        [cbn [fails_at]; auto|].
      rewrite Hrun. simpl. apply Hc. simpl. lia. }
    destruct (Z.eq_dec
                (env_sf_readf_short E (file (clip_with_info E clip path b f))
                   (frames (clip_with_info E clip path b f)))
                (frames (clip_with_info E clip path b f))) as [Hr|Hr].
    2:{ destruct (audioLoadClip_failure E clip path b s f Read_clip_file w)
          as (c & w' & tr & Hrun & _ & _ & _ & _ & _ & Hc);
          [cbn [fails_at]; unfold temp_allocated, file_read; auto 10|].
        rewrite Hrun. simpl. apply Hc. simpl. lia. }
    destruct (upload_error E clip path b f) as [e|] eqn:Hu.
    { destruct (audioLoadClip_failure E clip path b s f Copy_to_clip_buffer w)
        as (c & w' & tr & Hrun & _ & _ & _ & _ & _ & Hc).
      { cbn [fails_at]. unfold temp_allocated, file_read.
        repeat split; auto; try apply Hf. congruence. }
      rewrite Hrun. simpl. apply Hc. simpl. lia. }
    destruct (audioLoadClip_success E clip path b s f w) as (w' & Hrun & _).
    { unfold all_steps_succeed, temp_allocated, file_read. auto 10. }
    rewrite Hrun. reflexivity. }
  rewrite Hclip. unfold clip_with_info. fold info.
  split; [apply set_clip_info_format_8|].
  split; [apply set_clip_info_format_16|].
  intros Hp Hr Hu. subst r.
  destruct (audioLoadClip_success E clip path b s f w) as (w' & Hrun & _).
  { unfold all_steps_succeed. auto 10. }
  rewrite Hrun. reflexivity.
Qed.

Lemma audioLoadClip_channel_tag_witness :
  let r := audioLoadClip three_channels fresh_clip "three.wav" fresh_world in
  Sndfile.channels (snd (env_sf_open three_channels "three.wav")) = 3 /\
  format (snd (value r)) = AL.AL_FORMAT_STEREO16 /\
  fst (value r) = AUDIO_SUCCESS.
Proof.
  assert (Hb : buffer_generated three_channels 1) by reflexivity.
  assert (Hs : source_generated three_channels 2) by reflexivity.
  assert (Hf : file_opened three_channels "three.wav" 0x3000)
    by (split; [reflexivity | discriminate]).
  destruct (audioLoadClip_channel_tag three_channels fresh_clip "three.wav"
              1 2 0x3000 fresh_world Hb Hs Hf) as (_ & H16 & Hok).
  split; [reflexivity|].
  split.
  - apply H16. vm_compute. reflexivity.
  - apply Hok.
    + vm_compute. discriminate.
    + vm_compute. reflexivity.
    + vm_compute. reflexivity.
Defined.

(** C9: [audioUnloadClip] is the rollback of a failed upload: as functions
    of the clip and the world the two are equal, both close the file,
    delete the voice and delete the buffer in this order, and the handles a
    run of [audioLoadClip] releases when its upload fails are those that
    [audioUnloadClip] releases for the same clip. *)
Theorem audioUnloadClip_is_upload_rollback :
  (forall clip w,
     audioUnloadClip clip w =
     internal_audio_clip_cleanup
       IAC_COPY_CLIP_FILE_DATA_TO_CLIP_BUFFER_FAILURE clip w) /\
  (forall clip w,
     audioUnloadClip clip w =
     mkRes tt w [ Call_sf_close (file clip);
                  Call_alDeleteSources (global_source w);
                  Call_alDeleteBuffers (buffer clip) ]) /\
  (forall E clip path b s f w,
     fails_at E clip path b s f Copy_to_clip_buffer ->
     let r := audioLoadClip E clip path w in
     handle_releases (events r) =
     handle_releases (events (audioUnloadClip (snd (value r)) (world r)))).
Proof.
  split; [reflexivity|]. split; [reflexivity|].
  intros E clip path b s f w H r. subst r.
  destruct (audioLoadClip_failure E clip path b s f Copy_to_clip_buffer w H)
    as (c & w' & tr & Hrun & _ & Hrel & _ & _ & Hsrc & Hc).
  rewrite Hrun. cbn [events value world snd].
  change (audioUnloadClip c w')
    with (mkRes tt w' [ Call_sf_close (file c);
                        Call_alDeleteSources (global_source w');
                        Call_alDeleteBuffers (buffer c) ]).
  cbn [events]. rewrite Hrel, Hc, Hsrc by (simpl; lia).
  unfold clip_with_info. cbn.
  rewrite set_clip_info_file, set_clip_info_buffer. reflexivity.
Qed.

Lemma audioUnloadClip_is_upload_rollback_witness :
  let r := audioLoadClip upload_rejected fresh_clip "valid_mono16.wav"
             fresh_world in
  handle_releases (events r) = [File 0x3000; Voice 2; Buffer 1] /\
  handle_releases (events (audioUnloadClip (snd (value r)) (world r)))
  = [File 0x3000; Voice 2; Buffer 1].
Proof.
  assert (H : fails_at upload_rejected fresh_clip "valid_mono16.wav"
                1 2 0x3000 Copy_to_clip_buffer)
    by (vm_compute; repeat split; intro; discriminate).
  pose proof (proj2 (proj2 audioUnloadClip_is_upload_rollback)
                upload_rejected fresh_clip "valid_mono16.wav" 1 2 0x3000
                fresh_world H) as Heq.
  split; [vm_compute; reflexivity|].
  rewrite <- Heq. vm_compute. reflexivity.
Defined.

(** ** The subsystem lifecycle *)

(** C5: [audioInitSubsystem] fails without releasing anything when the
    device cannot be opened; it closes the device when the context cannot
    be created; it destroys the context and then closes the device when
    the context cannot be made current; it succeeds, releasing nothing,
    when the three steps succeed. *)
Theorem audioInitSubsystem_rollback E w :
  let r := audioInitSubsystem E w in
  let d := env_alcOpenDevice E in
  let c := env_alcCreateContext E d in
  let a := env_alcMakeContextCurrent E c in
  (d = NULL ->
   value r = AUDIO_FAILURE /\
   events r = [ Log_info "Initialize audio subsystem" [];
                Call_alcOpenDevice NULL d;
                Log_error "Failed to open default audio device" ]) /\
  (d <> NULL -> c = NULL ->
   value r = AUDIO_FAILURE /\
   events r = [ Log_info "Initialize audio subsystem" [];
                Call_alcOpenDevice NULL d;
                Call_alcCreateContext d c;
                Log_error "Failed to create device context";
                Call_alcCloseDevice d ]) /\
  (d <> NULL -> c <> NULL -> a = AL.ALC_FALSE ->
   value r = AUDIO_FAILURE /\
   events r = [ Log_info "Initialize audio subsystem" [];
                Call_alcOpenDevice NULL d;
                Call_alcCreateContext d c;
                Call_alcMakeContextCurrent c a;
                Log_error "Failed to make context current";
                Call_alcDestroyContext c;
                Call_alcCloseDevice d ]) /\
  (d <> NULL -> c <> NULL -> a <> AL.ALC_FALSE ->
   value r = AUDIO_SUCCESS /\
   events r = [ Log_info "Initialize audio subsystem" [];
                Call_alcOpenDevice NULL d;
                Call_alcCreateContext d c;
                Call_alcMakeContextCurrent c a ]).
Proof.
  intros r d c a. subst r d c a.
  destruct E as [od cc mc gb gs so ca rd bd st ind].
  repeat split; revert H; try revert H0; try revert H1;
    run; intros; go; reflexivity.
Qed.

Lemma audioInitSubsystem_rollback_witness :
  (value (audioInitSubsystem no_device fresh_world) = AUDIO_FAILURE /\
   events (audioInitSubsystem no_device fresh_world)
   = [ Log_info "Initialize audio subsystem" [];
       Call_alcOpenDevice NULL NULL;
       Log_error "Failed to open default audio device" ]) /\
  (value (audioInitSubsystem no_context fresh_world) = AUDIO_FAILURE /\
   events (audioInitSubsystem no_context fresh_world)
   = [ Log_info "Initialize audio subsystem" [];
       Call_alcOpenDevice NULL 0x1000;
       Call_alcCreateContext 0x1000 NULL;
       Log_error "Failed to create device context";
       Call_alcCloseDevice 0x1000 ]) /\
  (value (audioInitSubsystem not_current fresh_world) = AUDIO_FAILURE /\
   events (audioInitSubsystem not_current fresh_world)
   = [ Log_info "Initialize audio subsystem" [];
       Call_alcOpenDevice NULL 0x1000;
       Call_alcCreateContext 0x1000 0x2000;
       Call_alcMakeContextCurrent 0x2000 AL.ALC_FALSE;
       Log_error "Failed to make context current";
       Call_alcDestroyContext 0x2000;
       Call_alcCloseDevice 0x1000 ]) /\
  (value (audioInitSubsystem nominal fresh_world) = AUDIO_SUCCESS /\
   events (audioInitSubsystem nominal fresh_world)
   = [ Log_info "Initialize audio subsystem" [];
       Call_alcOpenDevice NULL 0x1000;
       Call_alcCreateContext 0x1000 0x2000;
       Call_alcMakeContextCurrent 0x2000 AL.ALC_TRUE ]).
Proof.
  split; [|split; [|split]].
  - apply (proj1 (audioInitSubsystem_rollback no_device fresh_world)).
    reflexivity.
  - apply (proj1 (proj2 (audioInitSubsystem_rollback no_context fresh_world)));
      [discriminate | reflexivity].
  - apply (proj1 (proj2 (proj2
             (audioInitSubsystem_rollback not_current fresh_world))));
      [discriminate | discriminate | reflexivity].
  - apply (proj2 (proj2 (proj2
             (audioInitSubsystem_rollback nominal fresh_world))));
      discriminate.
Defined.

(** ** Playback *)

Section Playback.

Variable E : Env.

Lemma poll_run w :
  poll E w =
  mkRes (env_alGetSourcei E (polls w) =? AL.AL_PLAYING)
        (set_polls (S (polls w)) w)
        [ Call_sleep 1;
          Call_alGetSourcei (global_source w) AL.AL_SOURCE_STATE
            (env_alGetSourcei E (polls w)) ].
Proof. reflexivity. Qed.

Lemma do_while_step fuel w :
  do_while (S fuel) (poll E) w =
  if env_alGetSourcei E (polls w) =? AL.AL_PLAYING
  then
    let r := do_while fuel (poll E) (set_polls (S (polls w)) w) in
    mkRes (value r) (world r)
      (Call_sleep 1
         :: Call_alGetSourcei (global_source w) AL.AL_SOURCE_STATE
              (env_alGetSourcei E (polls w))
         :: events r)
  else
    mkRes (Some tt) (set_polls (S (polls w)) w)
      [ Call_sleep 1;
        Call_alGetSourcei (global_source w) AL.AL_SOURCE_STATE
          (env_alGetSourcei E (polls w)) ].
Proof.
  cbn [do_while]. unfold mbind at 1, M_bind. rewrite poll_run.
  destruct (env_alGetSourcei E (polls w) =? AL.AL_PLAYING).
  - destruct (do_while fuel (poll E) (set_polls (S (polls w)) w)); reflexivity.
  - reflexivity.
Qed.

(** The loop ends at the first query that does not report [AL_PLAYING]. *)
Lemma do_while_stops n : forall fuel w,
  (forall i, (i < n)%nat -> playing E (polls w + i)) ->
  ~ playing E (polls w + n) ->
  (n < fuel)%nat ->
  value (do_while fuel (poll E) w) = Some tt /\
  events (do_while fuel (poll E) w)
  = poll_events E (global_source w) (polls w) (S n).
Proof.
  induction n as [|n IH]; intros fuel w Hplay Hstop Hfuel;
    (destruct fuel as [|fuel]; [lia|]); rewrite do_while_step.
  - rewrite Nat.add_0_r in Hstop.
    destruct (Z.eqb_spec (env_alGetSourcei E (polls w)) AL.AL_PLAYING);
      [contradiction|].
    split; reflexivity.
  - pose proof (Hplay 0%nat ltac:(lia)) as H0. rewrite Nat.add_0_r in H0.
    unfold playing in H0. rewrite H0, Z.eqb_refl.
    destruct (IH fuel (set_polls (S (polls w)) w)) as [Hv He].
    + intros i Hi. cbn [polls set_polls].
      replace (S (polls w) + i)%nat with (polls w + S i)%nat by lia.
      apply Hplay. lia.
    + cbn [polls set_polls].
      replace (S (polls w) + n)%nat with (polls w + S n)%nat by lia.
      exact Hstop.
    + lia.
    + cbn [value events]. split; [exact Hv|].
      rewrite He. simpl. rewrite H0. reflexivity.
Qed.

(** While every query reports [AL_PLAYING] the loop does not end. *)
Lemma do_while_runs fuel : forall w,
  (forall i, (i < fuel)%nat -> playing E (polls w + i)) ->
  value (do_while fuel (poll E) w) = None.
Proof.
  induction fuel as [|fuel IH]; intros w Hplay; [reflexivity|].
  rewrite do_while_step.
  pose proof (Hplay 0%nat ltac:(lia)) as H0. rewrite Nat.add_0_r in H0.
  unfold playing in H0. rewrite H0, Z.eqb_refl. cbn [value].
  apply IH. intros i Hi. cbn [polls set_polls].
  replace (S (polls w) + i)%nat with (polls w + S i)%nat by lia.
  apply Hplay. lia.
Qed.

(** A loop that ended was stopped by a query that did not report
    [AL_PLAYING], after queries that all did. *)
Lemma do_while_ended fuel : forall w,
  value (do_while fuel (poll E) w) = Some tt ->
  exists n,
    (n < fuel)%nat /\
    (forall i, (i < n)%nat -> playing E (polls w + i)) /\
    ~ playing E (polls w + n) /\
    events (do_while fuel (poll E) w)
    = poll_events E (global_source w) (polls w) (S n).
Proof.
  induction fuel as [|fuel IH]; intros w Hend; [discriminate|].
  rewrite do_while_step in Hend |- *.
  destruct (Z.eqb_spec (env_alGetSourcei E (polls w)) AL.AL_PLAYING)
    as [Hp|Hp].
  - cbn [value] in Hend. destruct (IH _ Hend) as (n & Hn & Hplay & Hstop & He).
    cbn [polls set_polls global_source] in Hplay, Hstop, He.
    exists (S n). split; [lia|]. split; [|split].
    + intros i Hi. destruct i as [|i].
      * rewrite Nat.add_0_r. exact Hp.
      * replace (polls w + S i)%nat with (S (polls w) + i)%nat by lia.
        apply Hplay. lia.
    + replace (polls w + S n)%nat with (S (polls w) + n)%nat by lia.
      exact Hstop.
    + cbn [events]. rewrite He. reflexivity.
  - exists 0%nat. split; [lia|]. split; [intros; lia|]. split.
    + rewrite Nat.add_0_r. exact Hp.
    + reflexivity.
Qed.

Lemma audioPlayClip_run fuel clip w :
  audioPlayClip E fuel clip w =
  let r := do_while fuel (poll E) w in
  mkRes (value r) (world r)
    (Call_alSourcei (global_source w) AL.AL_BUFFER (to_int (buffer clip))
       :: Call_alSourcePlay (global_source w)
       :: events r).
Proof.
  unfold audioPlayClip.
  cbv [mbind M_bind get alSourcei alSourcePlay emit app].
  destruct (do_while fuel (poll E) w). reflexivity.
Qed.

End Playback.

(** C7: [audioPlayClip] attaches the buffer of the clip to the voice and
    starts it, then sleeps one second before each query of the state of the
    voice.  A call that returns made its last query the first one that did
    not report [AL_PLAYING]; once a query does not report [AL_PLAYING] the
    call returns; and as long as every query reports [AL_PLAYING] the call
    does not return, whatever the number of iterations allowed. *)
Theorem audioPlayClip_blocks E clip w :
  let src := global_source w in
  let started :=
    [ Call_alSourcei src AL.AL_BUFFER (to_int (buffer clip));
      Call_alSourcePlay src ] in
  (forall fuel,
     value (audioPlayClip E fuel clip w) = Some tt ->
     exists n,
       (n < fuel)%nat /\
       (forall i, (i < n)%nat -> playing E (polls w + i)%nat) /\
       ~ playing E (polls w + n)%nat /\
       events (audioPlayClip E fuel clip w)
       = started ++ poll_events E src (polls w) (S n)) /\
  (forall n fuel,
     (forall i, (i < n)%nat -> playing E (polls w + i)%nat) ->
     ~ playing E (polls w + n)%nat ->
     (n < fuel)%nat ->
     value (audioPlayClip E fuel clip w) = Some tt /\
     events (audioPlayClip E fuel clip w)
     = started ++ poll_events E src (polls w) (S n)) /\
  (forall fuel,
     (forall i, playing E (polls w + i)%nat) ->
     value (audioPlayClip E fuel clip w) = None).
Proof.
  intros src started. subst src started.
  split; [|split].
  - intros fuel Hend. rewrite audioPlayClip_run in Hend |- *.
    cbn [value events] in Hend |- *.
    destruct (do_while_ended E fuel w Hend) as (n & Hn & Hp & Hs & He).
    exists n. rewrite He. auto.
  - intros n fuel Hp Hs Hn. rewrite audioPlayClip_run. cbn [value events].
    destruct (do_while_stops E n fuel w Hp Hs Hn) as [Hv He].
    rewrite He. auto.
  - intros fuel Hp. rewrite audioPlayClip_run. cbn [value].
    apply do_while_runs. intros i _. apply Hp.
Qed.

Lemma audioPlayClip_blocks_witness :
  value (audioPlayClip nominal 5 fresh_clip fresh_world) = Some tt /\
  events (audioPlayClip nominal 5 fresh_clip fresh_world)
  = [ Call_alSourcei 0 AL.AL_BUFFER 0; Call_alSourcePlay 0;
      Call_sleep 1; Call_alGetSourcei 0 AL.AL_SOURCE_STATE AL.AL_PLAYING;
      Call_sleep 1; Call_alGetSourcei 0 AL.AL_SOURCE_STATE AL.AL_PLAYING;
      Call_sleep 1; Call_alGetSourcei 0 AL.AL_SOURCE_STATE AL.AL_STOPPED ].
Proof.
  apply (proj1 (proj2 (audioPlayClip_blocks nominal fresh_clip fresh_world))
           2%nat 5%nat).
  - intros i Hi. destruct i as [|[|i]]; [reflexivity | reflexivity | lia].
  - vm_compute. discriminate.
  - lia.
Defined.

(** C10: every iteration of the polling loop sleeps before it queries the
    voice.  A run of at least one iteration starts with the attach, the
    start of playback, a sleep of one second and only then the first query;
    a call that returns has made at least this one sleep and query; and if
    the first query already finds the voice not playing, the call returns
    after exactly one sleep and one query. *)
Theorem audioPlayClip_sleeps_first E clip w :
  let src := global_source w in
  let first_poll :=
    [ Call_alSourcei src AL.AL_BUFFER (to_int (buffer clip));
      Call_alSourcePlay src;
      Call_sleep 1;
      Call_alGetSourcei src AL.AL_SOURCE_STATE
        (env_alGetSourcei E (polls w)) ] in
  (forall fuel, exists rest,
     events (audioPlayClip E (S fuel) clip w) = first_poll ++ rest) /\
  (forall fuel,
     value (audioPlayClip E fuel clip w) = Some tt ->
     exists rest, events (audioPlayClip E fuel clip w) = first_poll ++ rest) /\
  (forall fuel,
     env_alGetSourcei E (polls w) <> AL.AL_PLAYING ->
     value (audioPlayClip E (S fuel) clip w) = Some tt /\
     events (audioPlayClip E (S fuel) clip w) = first_poll).
Proof.
  intros src first_poll. subst src first_poll.
  assert (Hfirst : forall fuel, exists rest,
            events (audioPlayClip E (S fuel) clip w)
            = [ Call_alSourcei (global_source w) AL.AL_BUFFER
                  (to_int (buffer clip));
                Call_alSourcePlay (global_source w);
                Call_sleep 1;
                Call_alGetSourcei (global_source w) AL.AL_SOURCE_STATE
                  (env_alGetSourcei E (polls w)) ] ++ rest).
  { intros fuel. rewrite audioPlayClip_run, do_while_step.
    destruct (env_alGetSourcei E (polls w) =? AL.AL_PLAYING);
      cbn [events]; eexists; reflexivity. }
  split; [exact Hfirst|]. split.
  - intros [|fuel] Hend; [discriminate|]. apply Hfirst.
  - intros fuel Hstop. rewrite audioPlayClip_run, do_while_step.
    destruct (Z.eqb_spec (env_alGetSourcei E (polls w)) AL.AL_PLAYING);
      [contradiction|].
    split; reflexivity.
Qed.

Lemma audioPlayClip_sleeps_first_witness :
  value (audioPlayClip silent 1 fresh_clip fresh_world) = Some tt /\
  events (audioPlayClip silent 1 fresh_clip fresh_world)
  = [ Call_alSourcei 0 AL.AL_BUFFER 0; Call_alSourcePlay 0;
      Call_sleep 1; Call_alGetSourcei 0 AL.AL_SOURCE_STATE AL.AL_STOPPED ].
Proof.
  apply (proj2 (proj2 (audioPlayClip_sleeps_first silent fresh_clip
                         fresh_world)) 0%nat).
  vm_compute. discriminate.
Defined.

(** * Further properties *)

(** ** Runs, compositionally *)

Lemma bind_run {A B : Type} (m : M A) (f : A -> M B) (w : World) :
  (m ≫= f) w =
  mkRes (value (f (value (m w)) (world (m w))))
        (world (f (value (m w)) (world (m w))))
        (events (m w) ++ events (f (value (m w)) (world (m w)))).
Proof.
  unfold mbind, M_bind. destruct (m w) as [a w1 t1]. cbn [value world events].
  destruct (f a w1) as [c w2 t2]. reflexivity.
Qed.

Section Confined.

Variable R : World -> World -> Prop.
Variable P : event -> Prop.
Hypothesis R_refl : forall w, R w w.
Hypothesis R_trans : forall w1 w2 w3, R w1 w2 -> R w2 w3 -> R w1 w3.

Lemma confined_ret {A : Type} (a : A) : confined R P (mret a).
Proof. intros w. split; [apply R_refl | constructor]. Qed.

Lemma confined_bind {A B : Type} (m : M A) (f : A -> M B) :
  confined R P m -> (forall a, confined R P (f a)) -> confined R P (m ≫= f).
Proof.
  intros Hm Hf w. rewrite bind_run. cbn [world events].
  destruct (Hm w) as [HR HP].
  destruct (Hf (value (m w)) (world (m w))) as [HR' HP'].
  split; [eapply R_trans; eassumption | apply Forall_app; auto].
Qed.

Lemma confined_emit (e : event) : P e -> confined R P (emit e).
Proof. intros He w. split; [apply R_refl | repeat constructor; exact He]. Qed.

Lemma confined_get {A : Type} (f : World -> A) : confined R P (get f).
Proof. intros w. split; [apply R_refl | constructor]. Qed.

Lemma confined_modify (f : World -> World) :
  (forall w, R w (f w)) -> confined R P (modify f).
Proof. intros Hf w. split; [apply Hf | constructor]. Qed.

Lemma confined_fall_through (body : switch_body) :
  Forall (fun arm => match snd arm with
                     | Do m => confined R P m
                     | Break => True
                     end) body ->
  confined R P (fall_through body).
Proof.
  induction 1 as [|[labels [m|]] rest Harm Hrest IH]; cbn [fall_through].
  - apply confined_ret.
  - apply confined_bind; [exact Harm | intros _; exact IH].
  - apply confined_ret.
Qed.

Lemma confined_switch (v : Z) (body : switch_body) :
  Forall (fun arm => match snd arm with
                     | Do m => confined R P m
                     | Break => True
                     end) body ->
  confined R P (switch v body).
Proof.
  induction 1 as [|[labels s] rest Harm Hrest IH]; cbn [switch].
  - apply confined_ret.
  - destruct (existsb (Z.eqb v) labels); [|exact IH].
    apply confined_fall_through. constructor; assumption.
Qed.

Lemma confined_do_while (fuel : nat) (body : M bool) :
  confined R P body -> confined R P (do_while fuel body).
Proof.
  intros Hbody. induction fuel as [|fuel IH]; cbn [do_while].
  - apply confined_ret.
  - apply confined_bind; [exact Hbody|].
    intros [|]; [exact IH | apply confined_ret].
Qed.

End Confined.

(** [confine refl trans] proves a [confined] goal along the structure of the
    computation, given reflexivity and transitivity of the relation. *)
Ltac confine refl trans :=
  repeat first
    [ apply confined_ret; try exact refl
    | apply confined_get; try exact refl
    | apply confined_emit; [try exact refl; try exact I ..]
    | apply confined_modify;
      intros ?; repeat case_match; repeat split; reflexivity
    | apply confined_do_while; try exact refl; try exact trans
    | apply confined_switch; try exact refl; try exact trans;
      repeat constructor
    | apply confined_bind; try exact refl; try exact trans
    | match goal with
      | |- forall _, _ => intro
      | |- confined _ _ (if ?c then _ else _) => destruct c
      | |- confined _ _ (match ?o with _ => _ end) => destruct o
      | |- match snd _ with _ => _ end => cbn [snd]
      end
    | progress cbv zeta ].

Lemma same_subsystem_refl w : same_subsystem w w.
Proof. repeat split. Qed.

Lemma same_subsystem_trans w1 w2 w3 :
  same_subsystem w1 w2 -> same_subsystem w2 w3 -> same_subsystem w1 w3.
Proof. unfold same_subsystem. intuition congruence. Qed.

Lemma same_but_polls_refl w : same_but_polls w w.
Proof. repeat split. Qed.

Lemma same_but_polls_trans w1 w2 w3 :
  same_but_polls w1 w2 -> same_but_polls w2 w3 -> same_but_polls w1 w3.
Proof. unfold same_but_polls. intuition congruence. Qed.

(** ** More on the failing runs of [audioLoadClip] *)

Lemma audioLoadClip_failure_state E clip path b s f k w :
  fails_at E clip path b s f k ->
  exists c w' tr,
    audioLoadClip E clip path w = mkRes (AUDIO_FAILURE, c) w' tr /\
    errors_logged tr = [failure_message k] /\
    calloc_results tr
    = (if (4 <? step_number k)%nat then [temp_block E clip path b f] else []) /\
    ((1 < step_number k)%nat -> buffer c = b) /\
    ((step_number k <= 3)%nat ->
     format c = format clip /\ frames c = frames clip /\
     sample_rate c = sample_rate clip /\ channels c = channels clip) /\
    (step_number k = 3%nat -> file c = NULL).
Proof.
  intros H.
  remember (audioLoadClip E clip path w) as r eqn:Hr. revert Hr. revert H.
  destruct E as [od cc mc gb gs so ca rd bd st ind].
  destruct k; run.
  - destruct gb as [|e]; [intros; discriminate|].
    intros _. pose proof (error_code_nonzero e) as He; run_in He.
    go. intros ->. do 3 eexists. split; [reflexivity|]. run.
    repeat split; auto; lia.
  - destruct gs as [|e]; [intros [_ ?]; discriminate|].
    intros [-> _]. pose proof (error_code_nonzero e) as He; run_in He.
    go. intros ->. do 3 eexists. split; [reflexivity|]. run.
    repeat split; auto; lia.
  - intros (-> & -> & H3).
    go. intros ->. do 3 eexists. split; [reflexivity|]. run.
    repeat split; auto; lia.
  - intros (-> & -> & [H3 H3'] & H4).
    go. intros ->. do 3 eexists. split; [reflexivity|]. run.
    use_facts. frame.
    repeat split; auto; lia.
  - intros (-> & -> & [H3 H3'] & H4 & H5).
    go. intros ->. do 3 eexists. split; [reflexivity|]. run.
    use_facts. frame.
    repeat split; auto; lia.
  - intros (-> & -> & [H3 H3'] & H4 & H5 & H6).
    match type of H6 with
    | ?x <> None => destruct x as [e|] eqn:H7; [|congruence]
    end.
    clear H6. pose proof (error_code_nonzero e) as He; run_in He.
    go. intros ->. do 3 eexists. split; [reflexivity|]. run.
    use_facts. frame.
    repeat split; auto; lia.
Qed.

(** ** The clip lifecycle, continued *)

(** One case of a cleanup: the world is kept, the calls are the last ones
    of the chain from the [n]-th on, and the status is in the enumeration. *)
Ltac cleanup_case n :=
  split; [reflexivity | split; [exists n; reflexivity | intros [?|?]; lia]].

(** X1: whatever status it is given, [internal_audio_clip_cleanup] leaves
    the world as it is and makes a final segment of the three calls
    [sf_close], [alDeleteSources], [alDeleteBuffers], in this order; for a
    status that is not in the enumeration it makes no call. *)
Theorem internal_audio_clip_cleanup_suffix (failure_status : Z)
    (clip : AudioClip) (w : World) :
  let r := internal_audio_clip_cleanup failure_status clip w in
  world r = w /\
  (exists n,
     events r = drop n [ Call_sf_close (file clip);
                         Call_alDeleteSources (global_source w);
                         Call_alDeleteBuffers (buffer clip) ]) /\
  (failure_status < 0 \/ 6 < failure_status -> events r = []).
Proof.
  intros r. subst r.
  destruct (Z.eqb_spec failure_status 0) as [->|H0];
    [cleanup_case 0%nat|].
  destruct (Z.eqb_spec failure_status 6) as [->|H6];
    [cleanup_case 0%nat|].
  destruct (Z.eqb_spec failure_status 5) as [->|H5];
    [cleanup_case 0%nat|].
  destruct (Z.eqb_spec failure_status 4) as [->|H4];
    [cleanup_case 0%nat|].
  destruct (Z.eqb_spec failure_status 1) as [->|H1];
    [cleanup_case 1%nat|].
  destruct (Z.eqb_spec failure_status 2) as [->|H2];
    [cleanup_case 2%nat|].
  destruct (Z.eqb_spec failure_status 3) as [->|H3];
    [cleanup_case 3%nat|].
  assert (Hnone : internal_audio_clip_cleanup failure_status clip w
                  = mkRes tt w []).
  { unfold internal_audio_clip_cleanup. cbn [switch existsb].
    unfold IAC_CLEANUP_NORMALLY, IAC_OPEN_CLIP_FILE_FAILURE,
      IAC_GENERATE_GLOBAL_SOURCE_FAILURE, IAC_GENERATE_CLIP_BUFFER_FAILURE,
      IAC_ALLOCATE_MEMORY_TO_TEMP_CLIP_DATA_BUFFER_FAILURE,
      IAC_READ_CLIP_FILE_COMPLETELY_FAILURE,
      IAC_COPY_CLIP_FILE_DATA_TO_CLIP_BUFFER_FAILURE.
    rewrite (proj2 (Z.eqb_neq _ _) H0), (proj2 (Z.eqb_neq _ _) H1),
      (proj2 (Z.eqb_neq _ _) H2), (proj2 (Z.eqb_neq _ _) H3),
      (proj2 (Z.eqb_neq _ _) H4), (proj2 (Z.eqb_neq _ _) H5),
      (proj2 (Z.eqb_neq _ _) H6).
    reflexivity. }
  rewrite Hnone. split; [reflexivity|]. split; [|reflexivity].
  exists 3%nat. reflexivity.
Qed.

Lemma internal_audio_clip_cleanup_suffix_witness :
  events (internal_audio_clip_cleanup 7 fresh_clip fresh_world) = [].
Proof.
  apply (proj2 (proj2 (internal_audio_clip_cleanup_suffix 7 fresh_clip
                         fresh_world))).
  right. lia.
Defined.

(** X6: an OpenAL error that is pending when [audioLoadClip] is called
    changes neither the result nor the final world of the call; it only
    shows in the value of the first [alGetError], which the code drops. *)
Theorem audioLoadClip_pending_error E clip path w e :
  let r := audioLoadClip E clip path w in
  let r' := audioLoadClip E clip path (set_al_error e w) in
  value r' = value r /\
  world r' = world r /\
  events r' = Log_info "Load audio clip: %s" [path]
                :: Call_alGetError e :: drop 2 (events r).
Proof.
  intros r r'. subst r r'. unfold audioLoadClip.
  rewrite (bind_run (log_info _ _) _ w).
  rewrite (bind_run (log_info _ _) _ (set_al_error e w)).
  cbn [log_info emit value world events app].
  rewrite (bind_run alGetError _ w).
  rewrite (bind_run alGetError _ (set_al_error e w)).
  change (world (alGetError (set_al_error e w)))
    with (world (alGetError w)).
  cbn [value world events].
  repeat split.
Qed.

(** X7: a run of [audioLoadClip] that does not fail at the read leaves the
    heap as it found it, the block that [calloc] returns being one that was
    not allocated before. *)
Theorem audioLoadClip_heap_restored E clip path b s f w :
  heap w !! temp_block E clip path b f = None ->
  all_steps_succeed E clip path b s f \/
  (exists k, k <> Read_clip_file /\ fails_at E clip path b s f k) ->
  heap (world (audioLoadClip E clip path w)) = heap w.
Proof.
  intros Hfresh [Hall | (k & Hk & Hfail)].
  - destruct (audioLoadClip_success E clip path b s f w Hall)
      as (w' & Hrun & _ & Hheap).
    rewrite Hrun. cbn [world]. rewrite Hheap, delete_insert_eq.
    apply delete_id, Hfresh.
  - destruct (audioLoadClip_failure E clip path b s f k w Hfail)
      as (c & w' & tr & Hrun & _ & _ & _ & Hheap & _).
    rewrite Hrun. cbn [world]. rewrite Hheap. unfold heap_after.
    destruct k; try reflexivity; [contradiction|].
    rewrite delete_insert_eq. apply delete_id, Hfresh.
Qed.

Lemma audioLoadClip_heap_restored_witness :
  heap (world (audioLoadClip upload_rejected fresh_clip "valid_mono16.wav"
                 fresh_world)) = heap fresh_world.
Proof.
  apply (audioLoadClip_heap_restored upload_rejected fresh_clip
           "valid_mono16.wav" 1 2 0x3000 fresh_world).
  - vm_compute. reflexivity.
  - right. exists Copy_to_clip_buffer. split; [discriminate|].
    vm_compute. repeat split; intro; discriminate.
Defined.

(** X8: [audioUnloadClip] on the clip and in the world that a successful
    [audioLoadClip] returns releases exactly the handles the load acquired,
    in the reverse of the order of acquisition, and changes nothing in the
    world. *)
Theorem audioUnloadClip_after_load E clip path b s f w :
  all_steps_succeed E clip path b s f ->
  let r := audioLoadClip E clip path w in
  let u := audioUnloadClip (snd (value r)) (world r) in
  handle_acquisitions (events r) = [Buffer b; Voice s; File f] /\
  handle_releases (events r) = [] /\
  handle_releases (events u) = rev (handle_acquisitions (events r)) /\
  world u = world r.
Proof.
  intros Hall r u. subst r u.
  destruct (audioLoadClip_success E clip path b s f w Hall)
    as (w' & Hrun & Hsrc & _).
  rewrite Hrun. cbn [value snd world events].
  destruct Hall as (_ & _ & [_ Hf] & _).
  assert (Hacq : handle_acquisitions
                   [ Log_info "Load audio clip: %s" [path];
                     Call_alGetError (al_error w);
                     Call_alGenBuffers (AL.Generated b);
                     Call_alGetError AL.AL_NO_ERROR;
                     Call_alGenSources (AL.Generated s);
                     Call_alGetError AL.AL_NO_ERROR;
                     Call_sf_open path Sndfile.SFM_READ f ]
                 = [Buffer b; Voice s; File f]).
  { cbn. rewrite (proj2 (Z.eqb_neq _ _) Hf). reflexivity. }
  split; [|split; [reflexivity|split; [|reflexivity]]].
  - change (handle_acquisitions ?l)
      with (handle_acquisitions
              [ Log_info "Load audio clip: %s" [path];
                Call_alGetError (al_error w);
                Call_alGenBuffers (AL.Generated b);
                Call_alGetError AL.AL_NO_ERROR;
                Call_alGenSources (AL.Generated s);
                Call_alGetError AL.AL_NO_ERROR;
                Call_sf_open path Sndfile.SFM_READ f ]).
    exact Hacq.
  - change (handle_acquisitions ?l)
      with (handle_acquisitions
              [ Log_info "Load audio clip: %s" [path];
                Call_alGetError (al_error w);
                Call_alGenBuffers (AL.Generated b);
                Call_alGetError AL.AL_NO_ERROR;
                Call_alGenSources (AL.Generated s);
                Call_alGetError AL.AL_NO_ERROR;
                Call_sf_open path Sndfile.SFM_READ f ]).
    rewrite Hacq.
    change (audioUnloadClip ?c w')
      with (mkRes tt w' [ Call_sf_close (file c);
                          Call_alDeleteSources (global_source w');
                          Call_alDeleteBuffers (buffer c) ]).
    cbn [events]. rewrite Hsrc. unfold clip_with_info. cbn.
    rewrite set_clip_info_file, set_clip_info_buffer. reflexivity.
Qed.

Lemma audioUnloadClip_after_load_witness :
  let r := audioLoadClip nominal fresh_clip "valid_mono16.wav" fresh_world in
  let u := audioUnloadClip (snd (value r)) (world r) in
  handle_releases (events u) = [File 0x3000; Voice 2; Buffer 1] /\
  world u = world r.
Proof.
  assert (H : all_steps_succeed nominal fresh_clip "valid_mono16.wav"
                1 2 0x3000)
    by (vm_compute; repeat split; intro; discriminate).
  destruct (audioUnloadClip_after_load nominal fresh_clip "valid_mono16.wav"
              1 2 0x3000 fresh_world H) as (Hacq & _ & Hrel & Hw).
  split; [|exact Hw].
  rewrite Hacq in Hrel. exact Hrel.
Defined.

(** X9: [audioUnloadClip] does not know how far a load got.  After a load
    that failed at a step later than the first, the rollback has deleted
    the buffer of the clip, and [audioUnloadClip] on the clip the load
    left behind deletes the same buffer again. *)
Theorem audioUnloadClip_after_failed_load E clip path b s f k w :
  fails_at E clip path b s f k ->
  (1 < step_number k)%nat ->
  let r := audioLoadClip E clip path w in
  let u := audioUnloadClip (snd (value r)) (world r) in
  In (Buffer b) (handle_releases (events r)) /\
  In (Buffer b) (handle_releases (events u)).
Proof.
  intros Hfail Hk r u. subst r u.
  destruct (audioLoadClip_failure E clip path b s f k w Hfail)
    as (c & w' & tr & Hrun & _ & Hrel & _).
  destruct (audioLoadClip_failure_state E clip path b s f k w Hfail)
    as (c' & w'' & tr' & Hrun' & _ & _ & Hbuf & _).
  rewrite Hrun in Hrun'. injection Hrun' as <- <- <-.
  rewrite Hrun. cbn [value snd world events].
  split.
  - rewrite Hrel. apply in_rev. unfold held_before.
    destruct k; cbn in Hk |- *; auto; lia.
  - change (audioUnloadClip c w')
      with (mkRes tt w' [ Call_sf_close (file c);
                          Call_alDeleteSources (global_source w');
                          Call_alDeleteBuffers (buffer c) ]).
    cbn. rewrite (Hbuf Hk). auto.
Qed.

Lemma audioUnloadClip_after_failed_load_witness :
  let r := audioLoadClip truncated fresh_clip "truncated.wav" fresh_world in
  let u := audioUnloadClip (snd (value r)) (world r) in
  In (Buffer 1) (handle_releases (events r)) /\
  In (Buffer 1) (handle_releases (events u)).
Proof.
  apply (audioUnloadClip_after_failed_load truncated fresh_clip
           "truncated.wav" 1 2 0x3000 Read_clip_file fresh_world).
  - vm_compute. repeat split; intro; discriminate.
  - vm_compute. lia.
Defined.

(** X10: a run of [audioLoadClip] that fails logs exactly one error, the
    message of its failure point; the messages of two different failure
    points differ, so the log tells where the load failed; a run that
    succeeds logs no error. *)
Theorem audioLoadClip_error_log E clip path b s f w :
  let r := audioLoadClip E clip path w in
  (forall k, fails_at E clip path b s f k ->
             errors_logged (events r) = [failure_message k]) /\
  (all_steps_succeed E clip path b s f -> errors_logged (events r) = []) /\
  (forall k k', failure_message k = failure_message k' -> k = k').
Proof.
  intros r. subst r. split; [|split].
  - intros k Hfail.
    destruct (audioLoadClip_failure_state E clip path b s f k w Hfail)
      as (c & w' & tr & Hrun & Hlog & _).
    rewrite Hrun. exact Hlog.
  - intros Hall.
    destruct (audioLoadClip_success E clip path b s f w Hall)
      as (w' & Hrun & _).
    rewrite Hrun. reflexivity.
  - intros k k' H. destruct k, k'; solve [reflexivity | discriminate H].
Qed.

Lemma audioLoadClip_error_log_witness :
  errors_logged
    (events (audioLoadClip truncated fresh_clip "truncated.wav" fresh_world))
  = ["Failed to read clip file completely"] /\
  errors_logged
    (events (audioLoadClip nominal fresh_clip "valid_mono16.wav" fresh_world))
  = [].
Proof.
  split.
  - apply (proj1 (audioLoadClip_error_log truncated fresh_clip "truncated.wav"
                    1 2 0x3000 fresh_world) Read_clip_file).
    vm_compute. repeat split; intro; discriminate.
  - apply (proj1 (proj2 (audioLoadClip_error_log nominal fresh_clip
                           "valid_mono16.wav" 1 2 0x3000 fresh_world))).
    vm_compute. repeat split; intro; discriminate.
Defined.

(** X11: a load that fails before the header is stored (at the buffer, the
    voice or the file) leaves the format, frame count, sample rate and
    channel count of the clip object as they were; a load that fails later
    has already overwritten the frame count, the sample rate and the
    channel count with those of the header. *)
Theorem audioLoadClip_failed_clip E clip path b s f k w :
  fails_at E clip path b s f k ->
  let c := snd (value (audioLoadClip E clip path w)) in
  let info := snd (env_sf_open E path) in
  ((step_number k <= 3)%nat ->
   format c = format clip /\ frames c = frames clip /\
   sample_rate c = sample_rate clip /\ channels c = channels clip) /\
  ((3 < step_number k)%nat ->
   frames c = Sndfile.frames info /\
   sample_rate c = Sndfile.samplerate info /\
   channels c = Sndfile.channels info).
Proof.
  intros Hfail c info. subst c.
  destruct (audioLoadClip_failure E clip path b s f k w Hfail)
    as (c & w' & tr & Hrun & _ & _ & _ & _ & _ & Hlate).
  destruct (audioLoadClip_failure_state E clip path b s f k w Hfail)
    as (c' & w'' & tr' & Hrun' & _ & _ & _ & Hearly & _).
  rewrite Hrun in Hrun'. injection Hrun' as <- <- <-.
  rewrite Hrun. cbn [value snd].
  split; [exact Hearly|].
  intros Hk. rewrite (Hlate Hk). unfold clip_with_info. fold info.
  rewrite set_clip_info_frames, set_clip_info_sample_rate,
    set_clip_info_channels.
  repeat split.
Qed.

Lemma audioLoadClip_failed_clip_witness :
  let c := snd (value (audioLoadClip truncated reused_clip "truncated.wav"
                         fresh_world)) in
  frames c = 1000 /\ sample_rate c = 44100 /\ channels c = 1.
Proof.
  apply (proj2 (audioLoadClip_failed_clip truncated reused_clip
                  "truncated.wav" 1 2 0x3000 Read_clip_file fresh_world
                  ltac:(vm_compute; repeat split; intro; discriminate))).
  vm_compute. lia.
Defined.

(** For an encoding that a [case] of the [switch] names, the header step
    depends neither on what the clip held before nor on the value
    [bit_depth] started with. *)
Lemma set_clip_info_named indet indet' c c' info :
  let sel := Z.land (Sndfile.format info) 0xF in
  sel = Sndfile.SF_FORMAT_PCM_S8 \/ sel = Sndfile.SF_FORMAT_PCM_U8 \/
  sel = Sndfile.SF_FORMAT_PCM_16 ->
  buffer c = buffer c' -> file c = file c' ->
  set_clip_info indet c info = set_clip_info indet' c' info.
Proof.
  intros sel Hsel Hb Hf. unfold set_clip_info. fold sel.
  unfold set_frames, set_sample_rate, set_channels, set_format.
  cbn [buffer format file frames sample_rate channels].
  rewrite Hb, Hf.
  destruct Hsel as [-> | [-> | ->]]; reflexivity.
Qed.

(** X12: for a file with an encoding that the [switch] names (the low four
    bits of the format select PCM_S8, PCM_U8 or PCM_16), a successful load
    returns a clip that is the same whatever clip object and world the
    caller passed in, and whatever the local [bit_depth] held at first. *)
Theorem audioLoadClip_named_encoding E clip path b s f w :
  let sel := Z.land (Sndfile.format (snd (env_sf_open E path))) 0xF in
  sel = Sndfile.SF_FORMAT_PCM_S8 \/ sel = Sndfile.SF_FORMAT_PCM_U8 \/
  sel = Sndfile.SF_FORMAT_PCM_16 ->
  all_steps_succeed E clip path b s f ->
  forall clip' w' indet,
    value (audioLoadClip (with_indeterminate indet E) clip' path w')
    = value (audioLoadClip E clip path w).
Proof.
  intros sel Hsel Hall clip' w' indet.
  assert (Hinfo : forall c,
            set_clip_info indet (set_file f (set_buffer b c))
              (snd (env_sf_open E path))
            = set_clip_info (env_indeterminate E) (set_file f (set_buffer b clip))
                (snd (env_sf_open E path))).
  { intros c. apply set_clip_info_named; [exact Hsel | reflexivity..]. }
  assert (Hc : clip_with_info (with_indeterminate indet E) clip' path b f
               = clip_with_info E clip path b f).
  { unfold clip_with_info. cbn [env_indeterminate env_sf_open with_indeterminate].
    rewrite Hinfo. reflexivity. }
  assert (Hd : bit_depth_with_info (with_indeterminate indet E) clip' path b f
               = bit_depth_with_info E clip path b f).
  { unfold bit_depth_with_info.
    cbn [env_indeterminate env_sf_open with_indeterminate].
    rewrite Hinfo. reflexivity. }
  assert (Hall' : all_steps_succeed (with_indeterminate indet E) clip' path
                    b s f).
  { destruct Hall as (H1 & H2 & H3 & H4 & H5 & H6).
    unfold all_steps_succeed, temp_allocated, file_read, upload_error,
      temp_block in *.
    rewrite Hc, Hd. repeat split; auto; apply H3. }
  destruct (audioLoadClip_success _ clip' path b s f w' Hall')
    as (w1 & Hrun1 & _).
  destruct (audioLoadClip_success E clip path b s f w Hall)
    as (w2 & Hrun2 & _).
  rewrite Hrun1, Hrun2. cbn [value]. rewrite Hc. reflexivity.
Qed.

Lemma audioLoadClip_named_encoding_witness :
  value (audioLoadClip (with_indeterminate 24 nominal) reused_clip
           "valid_mono16.wav" fresh_world)
  = value (audioLoadClip nominal fresh_clip "valid_mono16.wav" fresh_world).
Proof.
  apply (audioLoadClip_named_encoding nominal fresh_clip "valid_mono16.wav"
           1 2 0x3000 fresh_world).
  - right. right. vm_compute. reflexivity.
  - vm_compute. repeat split; intro; discriminate.
Defined.

(** X13: [audioLoadClip] stays within the clip lifecycle: whatever the
    environment answers, it leaves the device and the context of the
    subsystem and the poll counter as they are, and it calls none of the
    device and context functions and none of the playback functions. *)
Theorem audioLoadClip_confined E clip path :
  confined same_subsystem clip_call (audioLoadClip E clip path).
Proof.
  unfold audioLoadClip, internal_audio_clip_cleanup, log_info, log_error,
    alGetError, alGenBuffers, alGenSources, sf_open, calloc, sf_readf_short,
    alBufferData, free, sf_close, alDeleteSources, alDeleteBuffers, al_raise.
  confine same_subsystem_refl same_subsystem_trans.
Qed.

(** X14: for an 8-bit or 16-bit encoding and a clip of [n] samples with
    [n * (bit_depth / 2)] below 2^31, the byte length given to
    [alBufferData] is exactly the size of the block asked of [calloc], and
    the block is large enough for the [n] samples of type [short] that
    [sf_readf_short] writes. *)
Theorem temp_buffer_fits (clip : AudioClip) (bit_depth : Z) :
  bit_depth = 8 \/ bit_depth = 16 ->
  0 <= frames clip * channels clip ->
  frames clip * channels clip * (bit_depth / 2) < 2 ^ 31 ->
  upload_size clip bit_depth = temp_nmemb clip * temp_size bit_depth /\
  sizeof_short * (frames clip * channels clip)
  <= temp_nmemb clip * temp_size bit_depth.
Proof.
  intros Hbd Hn Hsmall.
  unfold upload_size, temp_nmemb, temp_size, to_int, to_sf_count_t, to_size_t,
    wrap_signed, wrap_unsigned, sizeof_short.
  set (n := frames clip * channels clip) in *.
  change (2 ^ 31) with 2147483648 in Hsmall.
  change (2 ^ (32 - 1)) with 2147483648.
  change (2 ^ 32) with 4294967296.
  change (2 ^ (64 - 1)) with 9223372036854775808.
  change (2 ^ 64) with 18446744073709551616.
  destruct Hbd as [-> | ->].
  - change (8 / 2) with 4 in Hsmall. change (Z.quot 8 2) with 4.
    rewrite (Z.mod_small (n + _)) by lia.
    replace (n + 9223372036854775808 - 9223372036854775808) with n by lia.
    rewrite (Z.mod_small (n * 8 + _)) by lia.
    replace (n * 8 + 9223372036854775808 - 9223372036854775808)
      with (2 * (4 * n)) by lia.
    rewrite Z.quot_div_nonneg, Z.mul_comm, Z.div_mul by lia.
    rewrite (Z.mod_small (4 * n + _)) by lia.
    rewrite (Z.mod_small n) by lia.
    change ((4 + 2147483648) mod 4294967296 - 2147483648) with 4.
    change (4 mod 18446744073709551616) with 4.
    lia.
  - change (16 / 2) with 8 in Hsmall. change (Z.quot 16 2) with 8.
    rewrite (Z.mod_small (n + _)) by lia.
    replace (n + 9223372036854775808 - 9223372036854775808) with n by lia.
    rewrite (Z.mod_small (n * 16 + _)) by lia.
    replace (n * 16 + 9223372036854775808 - 9223372036854775808)
      with (2 * (8 * n)) by lia.
    rewrite Z.quot_div_nonneg, Z.mul_comm, Z.div_mul by lia.
    rewrite (Z.mod_small (8 * n + _)) by lia.
    rewrite (Z.mod_small n) by lia.
    change ((8 + 2147483648) mod 4294967296 - 2147483648) with 8.
    change (8 mod 18446744073709551616) with 8.
    lia.
Qed.

Lemma temp_buffer_fits_witness :
  let c := snd (value (audioLoadClip nominal fresh_clip "valid_mono16.wav"
                         fresh_world)) in
  upload_size c 16 = temp_nmemb c * temp_size 16 /\
  sizeof_short * (frames c * channels c) <= temp_nmemb c * temp_size 16.
Proof.
  apply temp_buffer_fits.
  - right. reflexivity.
  - vm_compute. discriminate.
  - vm_compute. reflexivity.
Defined.

(** X18: in every run of [audioLoadClip], [free] is called at most once,
    and only on the block that [calloc] returned, which is not [NULL]. *)
Theorem audioLoadClip_free_discipline E clip path w :
  let tr := events (audioLoadClip E clip path w) in
  freed tr = [] \/
  exists p, freed tr = [p] /\ calloc_results tr = [p] /\ p <> NULL.
Proof.
  intros tr. subst tr.
  destruct (audioLoadClip_cases E clip path) as (b & s & f & [Hall | [k Hk]]).
  - right. exists (temp_block E clip path b f).
    destruct (audioLoadClip_success E clip path b s f w Hall)
      as (w' & Hrun & _).
    rewrite Hrun. destruct Hall as (_ & _ & _ & Hp & _).
    repeat split; exact Hp.
  - destruct (audioLoadClip_failure E clip path b s f k w Hk)
      as (c & w' & tr & Hrun & _ & _ & Hfreed & _).
    destruct (audioLoadClip_failure_state E clip path b s f k w Hk)
      as (c' & w'' & tr' & Hrun' & _ & Hcalloc & _).
    rewrite Hrun in Hrun'. injection Hrun' as <- <- <-.
    rewrite Hrun. cbn [events].
    destruct k; try (left; exact Hfreed).
    right. exists (temp_block E clip path b f).
    split; [exact Hfreed|]. split; [exact Hcalloc|].
    cbn in Hk. apply Hk.
Qed.

(** ** The subsystem lifecycle, continued *)

(** X2: whatever status it is given, [internal_audio_subsystem_cleanup]
    leaves the world as it is and makes a final segment of the three calls
    [alcMakeContextCurrent(NULL)], [alcDestroyContext],
    [alcCloseDevice], in this order; for a status that is not in the
    enumeration it makes no call. *)
Theorem internal_audio_subsystem_cleanup_suffix (E : Env)
    (failure_status : Z) (w : World) :
  let r := internal_audio_subsystem_cleanup E failure_status w in
  world r = w /\
  (exists n,
     events r
     = drop n [ Call_alcMakeContextCurrent NULL
                  (env_alcMakeContextCurrent E NULL);
                Call_alcDestroyContext (global_context w);
                Call_alcCloseDevice (global_device w) ]) /\
  (failure_status < 0 \/ 3 < failure_status -> events r = []).
Proof.
  intros r. subst r.
  destruct (Z.eqb_spec failure_status 0) as [->|H0]; [cleanup_case 0%nat|].
  destruct (Z.eqb_spec failure_status 1) as [->|H1]; [cleanup_case 1%nat|].
  destruct (Z.eqb_spec failure_status 2) as [->|H2]; [cleanup_case 2%nat|].
  destruct (Z.eqb_spec failure_status 3) as [->|H3]; [cleanup_case 3%nat|].
  assert (Hnone : internal_audio_subsystem_cleanup E failure_status w
                  = mkRes tt w []).
  { unfold internal_audio_subsystem_cleanup. cbn [switch existsb].
    unfold IAS_CLEANUP_NORMALLY, IAS_MAKE_CONTEXT_CURRENT_FAILURE,
      IAS_CREATE_DEVICE_CONTEXT_FAILURE, IAS_OPEN_DEFAULT_DEVICE_FAILURE.
    rewrite (proj2 (Z.eqb_neq _ _) H0), (proj2 (Z.eqb_neq _ _) H1),
      (proj2 (Z.eqb_neq _ _) H2), (proj2 (Z.eqb_neq _ _) H3).
    reflexivity. }
  rewrite Hnone. split; [reflexivity|]. split; [|reflexivity].
  exists 3%nat. reflexivity.
Qed.

Lemma internal_audio_subsystem_cleanup_suffix_witness :
  events (internal_audio_subsystem_cleanup nominal (-1) fresh_world) = [].
Proof.
  apply (proj2 (proj2 (internal_audio_subsystem_cleanup_suffix nominal (-1)
                         fresh_world))).
  left. lia.
Defined.

(** The world [audioInitSubsystem] ends in and whether it fails. *)
Lemma audioInitSubsystem_world E w :
  let r := audioInitSubsystem E w in
  let d := env_alcOpenDevice E in
  let c := env_alcCreateContext E d in
  world r
  = mkWorld d (if d =? NULL then global_context w else c)
      (global_source w) (al_error w) (heap w) (polls w) /\
  (value r = AUDIO_SUCCESS <->
   d <> NULL /\ c <> NULL /\ env_alcMakeContextCurrent E c <> AL.ALC_FALSE) /\
  (d <> NULL -> value r = AUDIO_FAILURE ->
   In (Call_alcCloseDevice d) (events r)).
Proof.
  intros r d c. subst r d c.
  destruct E as [od cc mc gb gs so ca rd bd st ind].
  run.
  destruct (Z.eqb_spec od 0) as [Hd|Hd]; go;
    [repeat split; intros; try discriminate; tauto|].
  destruct (Z.eqb_spec (cc od) 0) as [Hc|Hc]; go;
    [repeat split; intros; try discriminate; try tauto; auto 10|].
  destruct (Z.eqb_spec (mc (cc od)) 0) as [Ha|Ha]; go;
    repeat split; intros; try discriminate; try tauto; auto 10.
Qed.

(** X3: [audioInitSubsystem] stores what [alcOpenDevice] returned in
    [global_device] and, when the device is open, what [alcCreateContext]
    returned in [global_context], whether the call then succeeds or fails;
    a rollback closes the device and destroys the context but does not
    reset the globals.  Nothing else in the world changes. *)
Theorem audioInitSubsystem_globals E w :
  let w' := world (audioInitSubsystem E w) in
  let d := env_alcOpenDevice E in
  global_device w' = d /\
  global_context w'
  = (if d =? NULL then global_context w else env_alcCreateContext E d) /\
  global_source w' = global_source w /\
  al_error w' = al_error w /\
  heap w' = heap w /\
  polls w' = polls w.
Proof.
  intros w' d. subst w' d.
  destruct (audioInitSubsystem_world E w) as [Hw _].
  rewrite Hw. repeat split.
Qed.

(** X4: after an [audioInitSubsystem] that succeeded, [audioQuitSubsystem]
    deactivates the context, destroys the context that the initialisation
    created and closes the device that it opened, in this order. *)
Theorem audioQuitSubsystem_after_init E w :
  let r := audioInitSubsystem E w in
  let d := env_alcOpenDevice E in
  let c := env_alcCreateContext E d in
  value r = AUDIO_SUCCESS ->
  audioQuitSubsystem E (world r)
  = mkRes tt (world r)
      [ Call_alcMakeContextCurrent NULL (env_alcMakeContextCurrent E NULL);
        Call_alcDestroyContext c;
        Call_alcCloseDevice d ].
Proof.
  intros r d c Hok. subst r d c.
  destruct (audioInitSubsystem_world E w) as (Hw & Hiff & _).
  apply Hiff in Hok. destruct Hok as (Hd & _).
  rewrite Hw. rewrite (proj2 (Z.eqb_neq _ _) Hd). reflexivity.
Qed.

Lemma audioQuitSubsystem_after_init_witness :
  audioQuitSubsystem nominal (world (audioInitSubsystem nominal fresh_world))
  = mkRes tt (world (audioInitSubsystem nominal fresh_world))
      [ Call_alcMakeContextCurrent NULL AL.ALC_TRUE;
        Call_alcDestroyContext 0x2000;
        Call_alcCloseDevice 0x1000 ].
Proof.
  apply (audioQuitSubsystem_after_init nominal fresh_world).
  vm_compute. reflexivity.
Defined.

(** X5: [audioQuitSubsystem] does not know how far the initialisation got.
    After an [audioInitSubsystem] that opened the device and then failed,
    the rollback has closed the device, and [audioQuitSubsystem] closes the
    same device again. *)
Theorem audioQuitSubsystem_after_failed_init E w :
  let r := audioInitSubsystem E w in
  let d := env_alcOpenDevice E in
  d <> NULL ->
  value r = AUDIO_FAILURE ->
  In (Call_alcCloseDevice d) (events r) /\
  In (Call_alcCloseDevice d) (events (audioQuitSubsystem E (world r))).
Proof.
  intros r d Hd Hfail. subst r d.
  destruct (audioInitSubsystem_world E w) as (Hw & _ & Hclose).
  split; [apply Hclose; assumption|].
  assert (Hq : forall w',
            events (audioQuitSubsystem E w')
            = [ Call_alcMakeContextCurrent NULL
                  (env_alcMakeContextCurrent E NULL);
                Call_alcDestroyContext (global_context w');
                Call_alcCloseDevice (global_device w') ])
    by reflexivity.
  rewrite Hq, Hw. cbn [global_device In]. auto.
Qed.

Lemma audioQuitSubsystem_after_failed_init_witness :
  let r := audioInitSubsystem not_current fresh_world in
  In (Call_alcCloseDevice 0x1000) (events r) /\
  In (Call_alcCloseDevice 0x1000)
    (events (audioQuitSubsystem not_current (world r))).
Proof.
  apply (audioQuitSubsystem_after_failed_init not_current fresh_world).
  - discriminate.
  - vm_compute. reflexivity.
Defined.

(** ** Playback, continued *)

Lemma slept_poll_events E src start count :
  slept (poll_events E src start count) = Z.of_nat count.
Proof.
  revert start. induction count as [|count IH]; intros start; [reflexivity|].
  cbn [poll_events slept foldr]. fold (slept (poll_events E src (S start) count)).
  rewrite IH. lia.
Qed.

(** X15: [audioPlayClip] only plays: whatever the number of iterations and
    whatever the voice reports, it changes nothing in the world but the
    poll counter, and every call it makes is one of [alSourcei],
    [alSourcePlay], [sleep], [alGetSourcei]; it acquires and releases no
    handle. *)
Theorem audioPlayClip_confined E fuel clip :
  confined same_but_polls playback_call (audioPlayClip E fuel clip) /\
  forall w,
    handle_acquisitions (events (audioPlayClip E fuel clip w)) = [] /\
    handle_releases (events (audioPlayClip E fuel clip w)) = [].
Proof.
  assert (H : confined same_but_polls playback_call
                (audioPlayClip E fuel clip)).
  { unfold audioPlayClip, poll, alSourcei, alSourcePlay, sleep, alGetSourcei.
    confine same_but_polls_refl same_but_polls_trans. }
  split; [exact H|].
  intros w. destruct (H w) as [_ HP].
  induction HP as [|e tr He _ IH]; [split; reflexivity|].
  destruct IH as [IHa IHr].
  destruct e; try contradiction;
    (split; [exact IHa | exact IHr]).
Qed.

(** X16: a call of [audioPlayClip] that finds the voice playing at its
    first [n] queries and not playing at the next one has slept [n + 1]
    seconds in all when it returns. *)
Theorem audioPlayClip_slept E clip w n fuel :
  (forall i, (i < n)%nat -> playing E (polls w + i)) ->
  ~ playing E (polls w + n) ->
  (n < fuel)%nat ->
  value (audioPlayClip E fuel clip w) = Some tt /\
  slept (events (audioPlayClip E fuel clip w)) = Z.of_nat n + 1.
Proof.
  intros Hp Hs Hn. rewrite audioPlayClip_run. cbn [value events].
  destruct (do_while_stops E n fuel w Hp Hs Hn) as [Hv He].
  split; [exact Hv|].
  rewrite He. cbn [slept foldr].
  fold (slept (poll_events E (global_source w) (polls w) (S n))).
  rewrite slept_poll_events. lia.
Qed.

Lemma audioPlayClip_slept_witness :
  value (audioPlayClip nominal 5 fresh_clip fresh_world) = Some tt /\
  slept (events (audioPlayClip nominal 5 fresh_clip fresh_world)) = 3.
Proof.
  apply (audioPlayClip_slept nominal fresh_clip fresh_world 2%nat 5%nat).
  - intros i Hi. destruct i as [|[|i]]; [reflexivity | reflexivity | lia].
  - vm_compute. discriminate.
  - lia.
Defined.

(** X17: the voice is shared.  After a successful [audioLoadClip],
    [audioPlayClip] attaches the buffer of whatever clip it is given, be it
    one loaded earlier, to the voice that this last load generated, and
    starts that voice; for the clip just loaded the buffer is the one the
    load generated. *)
Theorem audioPlayClip_after_load E clip path b s f w :
  all_steps_succeed E clip path b s f ->
  let r := audioLoadClip E clip path w in
  buffer (snd (value r)) = b /\
  forall fuel clip0,
    take 2 (events (audioPlayClip E fuel clip0 (world r)))
    = [ Call_alSourcei s AL.AL_BUFFER (to_int (buffer clip0));
        Call_alSourcePlay s ].
Proof.
  intros Hall r. subst r.
  destruct (audioLoadClip_success E clip path b s f w Hall)
    as (w' & Hrun & Hsrc & _).
  rewrite Hrun. cbn [value snd world].
  split.
  - unfold clip_with_info. rewrite set_clip_info_buffer. reflexivity.
  - intros fuel clip0. rewrite audioPlayClip_run. cbn [events take].
    rewrite Hsrc. reflexivity.
Qed.

Lemma audioPlayClip_after_load_witness :
  let r := audioLoadClip nominal fresh_clip "valid_mono16.wav" fresh_world in
  buffer (snd (value r)) = 1 /\
  take 2 (events (audioPlayClip nominal 5 reused_clip (world r)))
  = [ Call_alSourcei 2 AL.AL_BUFFER 1; Call_alSourcePlay 2 ].
Proof.
  destruct (audioPlayClip_after_load nominal fresh_clip "valid_mono16.wav"
              1 2 0x3000 fresh_world
              ltac:(vm_compute; repeat split; intro; discriminate))
    as [Hb Hplay].
  split; [exact Hb|]. exact (Hplay 5%nat reused_clip).
Defined.
